(** * search_agent.py: the search-augmentation pipeline

    A shallow embedding of [src/search_agent.py].  Python values are modelled
    as the code uses them:

    - a [str] is a list of characters; the characters are the code points
      below 256, so that [Ascii.ascii] holds one character;
    - an [int] is a [Z];
    - a dict with fixed keys (a turn, a search result) is a record;
    - the module-level list [conversation_history], the terminal and the
      sequence of calls made to external services form the state that every
      function threads;
    - an exception is an outcome [Raise e] of a computation and [try/except]
      is the combinator [try_except].

    The external services (the Ollama chat endpoint, the DuckDuckGo HTML
    endpoint seen through BeautifulSoup, trafilatura, the terminal) are the
    fields of a record [World]: each oracle sees every call made so far and
    the request, so two identical requests may be answered differently, and
    each may raise instead of answering. *)

From Stdlib Require Import List ZArith Lia Bool Ascii String DecimalString.
From Stdlib Require Import Sorted Permutation.
Import ListNotations.

Set Implicit Arguments.

(** ** Python strings *)

Module PyStr.

Definition str := list ascii.

(** A literal. *)
Definition lit (s : string) : str := list_ascii_of_string s.

Definition dquote : ascii := ascii_of_nat 34.
Definition squote : ascii := ascii_of_nat 39.
Definition newline : ascii := ascii_of_nat 10.

Definition eqb (s t : str) : bool :=
  if list_eq_dec ascii_dec s t then true else false.

(** Truth value of a string: [if s:]. *)
Definition truthy (s : str) : bool :=
  match s with [] => false | _ :: _ => true end.

(** [len(s)]. *)
Definition len (s : str) : Z := Z.of_nat (List.length s).

(** [s.startswith(p)]. *)
Fixpoint startswith (s p : str) {struct p} : bool :=
  match p, s with
  | [], _ => true
  | _ :: _, [] => false
  | a :: p', b :: s' => Ascii.eqb a b && startswith s' p'
  end.

(** [s.endswith(p)]. *)
Definition endswith (s p : str) : bool := startswith (rev s) (rev p).

(** A slice bound is clipped as Python does it: a negative bound counts
    from the end, and everything is brought back into [0, len]. *)
Definition clip (n i : Z) : Z :=
  if (i <? 0)%Z then Z.max 0 (i + n) else Z.min i n.

(** [s[a:b]] *)
Definition slice (s : str) (a b : Z) : str :=
  let a' := clip (len s) a in
  let b' := clip (len s) b in
  firstn (Z.to_nat (b' - a')) (skipn (Z.to_nat a') s).

(** [c.isspace()] on the code points below 256. *)
Definition isspace (c : ascii) : bool :=
  let n := nat_of_ascii c in
  ((9 <=? n) && (n <=? 13)) || ((28 <=? n) && (n <=? 32))
  || (n =? 133) || (n =? 160).

Fixpoint lstrip (s : str) : str :=
  match s with
  | c :: r => if isspace c then lstrip r else s
  | [] => []
  end.

(** [s.strip()] *)
Definition strip (s : str) : str := rev (lstrip (rev (lstrip s))).

Definition lower_char (c : ascii) : ascii :=
  let n := nat_of_ascii c in
  if ((65 <=? n) && (n <=? 90))
     || ((192 <=? n) && (n <=? 222) && negb (n =? 215))
  then ascii_of_nat (n + 32) else c.

(** [s.lower()] *)
Definition lower (s : str) : str := map lower_char s.

(** [sub in s] *)
Fixpoint contains (sub s : str) : bool :=
  startswith s sub ||
  match s with
  | [] => false
  | _ :: r => contains sub r
  end.

(** [str(n)] for an int. *)
Definition of_int (n : Z) : str := lit (NilZero.string_of_int (Z.to_int n)).

Definition digit_value (c : ascii) : option Z :=
  let n := nat_of_ascii c in
  if (48 <=? n) && (n <=? 57) then Some (Z.of_nat (n - 48)) else None.

(** The digits of a decimal literal: single underscores are allowed
    between two digits and nowhere else. *)
Fixpoint digits (acc : Z) (after_digit : bool) (s : str) : option Z :=
  match s with
  | [] => if after_digit then Some acc else None
  | c :: r =>
      match digit_value c with
      | Some d => digits (10 * acc + d) true r
      | None =>
          if Ascii.eqb c "_"%char && after_digit
          then digits acc false r
          else None
      end
  end.

(** The white space that [int] drops around a number: that of [isspace]
    without the separators 28 to 31. *)
Definition is_int_space (c : ascii) : bool :=
  let n := nat_of_ascii c in
  ((9 <=? n) && (n <=? 13)) || (n =? 32) || (n =? 133) || (n =? 160).

Fixpoint int_ltrim (s : str) : str :=
  match s with
  | c :: r => if is_int_space c then int_ltrim r else s
  | [] => []
  end.

Definition int_trim (s : str) : str := rev (int_ltrim (rev (int_ltrim s))).

(** The number of digits that [int] accepts in a decimal literal
    ([sys.get_int_max_str_digits()] as CPython 3.11 sets it). *)
Definition int_max_str_digits : Z := 4300.

Definition count_digits (s : str) : Z :=
  Z.of_nat (List.length (filter (fun c => match digit_value c with
                                          | Some _ => true
                                          | None => false
                                          end) s)).

(** [int(s)]: surrounding white space is dropped, one sign is allowed and
    the digits, leading zeros included, are at most 4300; [None] stands for
    the ValueError. *)
Definition parse_int (s : str) : option Z :=
  match int_trim s with
  | c :: r =>
      let body := if Ascii.eqb c "-"%char || Ascii.eqb c "+"%char then r else c :: r in
      if (int_max_str_digits <? count_digits body)%Z then None
      else if Ascii.eqb c "-"%char then option_map Z.opp (digits 0 false r)
      else if Ascii.eqb c "+"%char then digits 0 false r
      else digits 0 false (c :: r)
  | [] => None
  end.

(** [sep.join(parts)] *)
Fixpoint join (sep : str) (parts : list str) : str :=
  match parts with
  | [] => []
  | [p] => p
  | p :: rest => p ++ sep ++ join sep rest
  end.

End PyStr.

Import PyStr.

(** ** Data model *)

Inductive Role := system | user | assistant.

(** A message of the conversation: [{'role': ..., 'content': ...}]. *)
Record Turn := { role : Role; content : str }.

(** A search result: [{'id': ..., 'title': ..., 'link': ..., 'snippet': ...}]. *)
Record Candidate := { id : Z; title : str; link : str; snippet : str }.

(** What BeautifulSoup hands over for one [div.result]: the first
    [a.result__a] with its [href] attribute and text, and the text of the
    first [a.result__snippet]. *)
Record Anchor := { href : option str; anchor_text : str }.
Record ResultDiv := { title_tag : option Anchor; snippet_tag : option str }.

(** The prompt templates of the module [sys_msgs]. *)
Inductive Prompt := search_or_not_msg | query_msg | best_search_msg | contains_data_msg.

Definition Role_eqb (a b : Role) : bool :=
  match a, b with
  | system, system | user, user | assistant, assistant => true
  | _, _ => false
  end.

(** ** Exceptions *)

Inductive exn :=
| TypeError | ValueError | IndexError | EOFError | ConnectionError
| KeyboardInterrupt
| RequestException.

(** [except Exception] catches everything but the interrupt. *)
Definition is_Exception (e : exn) : bool :=
  match e with KeyboardInterrupt => false | _ => true end.

(** [except requests.exceptions.RequestException] *)
Definition is_RequestException (e : exn) : bool :=
  match e with RequestException => true | _ => false end.

Inductive result (A : Type) :=
| Ok (a : A)
| Raise (e : exn).
Arguments Raise {A} e.

(** ** External calls and the state *)

(** One entry per call that leaves the process. *)
Inductive Call :=
| CallChat (p : Prompt) (user_data : list (str * str))
| CallDecide (p : Prompt) (last_user_message : Turn)
| CallSearch (query : str)
| CallScrape (url : str)
| CallStream (messages : list Turn).

(** The answer of trafilatura to one URL. *)
Inductive Scraped :=
| FetchFailed                        (* fetch_url returned None *)
| Extracted (text : option str)      (* what extract returned *)
| ScrapeRaises (e : exn).            (* either call raised *)

(** The search: the request of lines 136-137 raises inside the [try], or
    the response is parsed and what comes after the [try] raises (lines
    143-168), or the page is parsed into its [div.result] blocks. *)
Inductive Searched :=
| RequestRaises (e : exn)
| ParseRaises (e : exn)
| Page (divs : list ResultDiv).

(** The answer of the streaming chat call: the call itself may raise, or it
    yields tokens and then ends or raises. *)
Inductive Streamed :=
| StreamRefused (e : exn)
| StreamTokens (tokens : list str) (failure : option exn).

(** Every service may answer or raise: [ollama_chat] and [ollama_decide]
    stand for what happens inside the [try] of the two helpers. *)
Record World := {
  asistant_msg : Turn;
  ollama_chat : list Call -> Prompt -> list (str * str) -> result str;
  ollama_decide : list Call -> Prompt -> Turn -> result str;
  duckduckgo : list Call -> str -> Searched;
  trafilatura : list Call -> str -> Scraped;
  ollama_stream : list Call -> list Turn -> Streamed
}.

Record State := {
  conversation_history : list Turn;
  stdout : list str;
  calls : list Call
}.

Definition M (A : Type) : Type := State -> result A * State.

Definition ret {A} (a : A) : M A := fun st => (Ok a, st).

Definition raise {A} (e : exn) : M A := fun st => (Raise e, st).

(** The outcome of a service, as the outcome of the computation. *)
Definition lift {A} (answer : result A) : M A :=
  match answer with
  | Ok a => ret a
  | Raise e => raise e
  end.

Definition bind {A B} (m : M A) (k : A -> M B) : M B :=
  fun st =>
    match m st with
    | (Ok a, st') => k a st'
    | (Raise e, st') => (Raise e, st')
    end.

(** [try: m  except ...: handler e]; the handler says which exceptions it
    takes. *)
Definition try_except {A} (m : M A) (handler : exn -> option (M A)) : M A :=
  fun st =>
    match m st with
    | (Ok a, st') => (Ok a, st')
    | (Raise e, st') =>
        match handler e with
        | Some h => h st'
        | None => (Raise e, st')
        end
    end.

Declare Scope py_scope.
Delimit Scope py_scope with py.
Notation "x <- m ;; k" := (bind m (fun x => k))
  (at level 100, m at next level, right associativity) : py_scope.
Notation "m ;; k" := (bind m (fun _ => k))
  (at level 100, right associativity) : py_scope.
Open Scope py_scope.

Definition get_history : M (list Turn) :=
  fun st => (Ok (conversation_history st), st).

Definition set_history (h : list Turn) : M unit :=
  fun st => (Ok tt, {| conversation_history := h; stdout := stdout st; calls := calls st |}).

Definition print (s : str) : M unit :=
  fun st => (Ok tt, {| conversation_history := conversation_history st;
                       stdout := stdout st ++ [s]; calls := calls st |}).

Definition record_call (c : Call) (st : State) : State :=
  {| conversation_history := conversation_history st;
     stdout := stdout st; calls := calls st ++ [c] |}.

(** Record a call and hand its answer, computed from the calls before it. *)
Definition call {A} (c : Call) (answer : list Call -> A) : M A :=
  fun st => (Ok (answer (calls st)), record_call c st).

(** [conversation_history.append(t)] *)
Definition append_turn (t : Turn) : M unit :=
  h <- get_history ;; set_history (h ++ [t]).

(** [l.pop(i)]: a negative index counts from the end; out of range is an
    IndexError, here [None]. *)
Definition pop {A} (l : list A) (i : Z) : option (A * list A) :=
  let n := Z.of_nat (List.length l) in
  let j := if (i <? 0)%Z then (i + n)%Z else i in
  if ((0 <=? j) && (j <? n))%Z
  then match nth_error l (Z.to_nat j) with
       | Some x => Some (x, firstn (Z.to_nat j) l ++ skipn (S (Z.to_nat j)) l)
       | None => None
       end
  else None.

(** [conversation_history.pop()] *)
Definition pop_turn : M Turn :=
  h <- get_history ;;
  match pop h (-1) with
  | Some (t, h') => set_history h' ;; ret t
  | None => raise IndexError
  end.

(** ** The program *)

Definition DUCKDUCKGO_MAX_RESULTS : Z := 5.
Definition SEARCH_RETRY_LIMIT : nat := 3.

(** [print(s)] ends the line, [print(s, end='')] does not. *)
Definition println (s : str) : M unit := print (s ++ [newline]).

(** What the two helpers make of an Exception: [None]. *)
Definition content_of (answer : result str) : option str :=
  match answer with
  | Ok content => Some content
  | Raise _ => None
  end.

(** The handler [except Exception as e: ... return None]. *)
Definition except_Exception {A} (e : exn) : option (M (option A)) :=
  if is_Exception e then Some (ret None) else None.

(** [content and 'true' in content.lower()], as a truth value. *)
Definition says_true (content : option str) : bool :=
  match content with
  | Some c => truthy c && contains (lit "true") (lower c)
  | None => false
  end.

(** Lines 113-117: the two tests on the ends of the query, one after the
    other. *)
Definition unquote (q : ascii) (query : str) : str :=
  if startswith query [q] && endswith query [q] then slice query 1 (-1)
  else query.

Definition strip_quotes (query : str) : str :=
  unquote squote (unquote dquote query).

(** Lines 143-170: the loop over the result blocks; [i] is the index that
    [enumerate] gives to the block. *)
Fixpoint parse_results (i : Z) (divs : list ResultDiv) : list Candidate :=
  match divs with
  | [] => []
  | d :: rest =>
      if (i >=? DUCKDUCKGO_MAX_RESULTS)%Z then []
      else
        match title_tag d with
        | None => parse_results (i + 1) rest
        | Some a =>
            match href a with
            | None => parse_results (i + 1) rest
            | Some l =>
                if truthy l then
                  {| id := i;
                     title := strip (anchor_text a);
                     link := l;
                     snippet := match snippet_tag d with
                                | Some s => strip s
                                | None => lit "No description available."
                                end |} :: parse_results (i + 1) rest
                else parse_results (i + 1) rest
            end
        end
  end.

(** The f-string of line 182. *)
Definition format_result (res : Candidate) : str :=
  lit "ID: " ++ of_int (id res) ++ [newline] ++
  lit "Title: " ++ title res ++ [newline] ++
  lit "Link: " ++ link res ++ [newline] ++
  lit "Snippet: " ++ snippet res ++ [newline] ++ lit "---".

Definition max_text_len : Z := 8000.

(** Line 249. *)
Definition truncated_page_text (page_text : str) : str :=
  slice page_text 0 max_text_len ++
  (if (len page_text >? max_text_len)%Z then lit "..." else []).

(** What [should_search_web] is given: the annotation says [str] and [main]
    passes one, the body reads a list of turns. *)
Inductive Conversation :=
| AsStr (s : str)
| AsTurns (h : list Turn).

(** Line 107. *)
Definition user_data_for_llm (last_user_prompt_content : str) : list (str * str) :=
  [(lit "user_prompt_for_llm",
    lit "CREATE A SEARCH QUERY FOR THIS PROMPT: " ++ [newline] ++ last_user_prompt_content)].

(** Lines 251-255. *)
Definition relevance_user_data (page_text user_prompt_content generated_query : str)
    : list (str * str) :=
  [(lit "page_text", truncated_page_text page_text);
   (lit "user_prompt", user_prompt_content);
   (lit "search_query", generated_query)].

(** [int(s)] *)
Definition int (s : str) : M Z :=
  match parse_int s with
  | Some z => ret z
  | None => raise ValueError
  end.

Section Program.

Variable W : World.

Definition _call_ollama_chat (system_prompt_template : Prompt)
    (user_data : list (str * str)) : M (option str) :=
  try_except
    (response <- call (CallChat system_prompt_template user_data)
                   (fun before => ollama_chat W before system_prompt_template user_data) ;;
     content <- lift response ;;
     ret (Some content))
    except_Exception.

Definition _call_ollama_decide (system_prompt : Prompt)
    (last_user_message : Turn) : M (option str) :=
  try_except
    (response <- call (CallDecide system_prompt last_user_message)
                   (fun before => ollama_decide W before system_prompt last_user_message) ;;
     content <- lift response ;;
     ret (Some content))
    except_Exception.

Definition should_search_web (conversation : Conversation) : M bool :=
  match conversation with
  | AsStr s =>
      (* [s[-1]] is a one-character str and ['role'] is not an index *)
      if truthy s then raise TypeError else ret false
  | AsTurns h =>
      match pop h (-1) with
      | None => ret false
      | Some (last_user_message, _) =>
          if negb (Role_eqb (role last_user_message) user) then ret false
          else
            content <- _call_ollama_decide search_or_not_msg last_user_message ;;
            ret (says_true content)
      end
  end.

Definition generate_search_query (last_user_prompt_content : str) : M (option str) :=
  query <- _call_ollama_chat query_msg (user_data_for_llm last_user_prompt_content) ;;
  match query with
  | Some q => if truthy q then ret (Some (strip_quotes q)) else ret (Some q)
  | None => ret None
  end.

(** Only a RequestException of the request is handled (line 139); what the
    parse raises is outside the [try]. *)
Definition perform_duckduckgo_search (query : str) : M (list Candidate) :=
  response <- call (CallSearch query) (fun before => duckduckgo W before query) ;;
  match response with
  | RequestRaises e => if is_RequestException e then ret [] else raise e
  | ParseRaises e => raise e
  | Page divs => ret (parse_results 0 divs)
  end.

(** Lines 198-210: what one attempt makes of the reply; [Some best_id] is
    the [return best_id]. *)
Definition check_reply (content : option str) (search_results : list Candidate)
    : M (option Z) :=
  match content with
  | Some c =>
      if truthy c then
        try_except
          (best_id <- int c ;;
           if ((0 <=? best_id) && (best_id <? Z.of_nat (List.length search_results)))%Z
           then ret (Some best_id) else ret None)
          (fun e => match e with ValueError => Some (ret None) | _ => None end)
      else ret None
  | None => ret None
  end.

(** The [for attempt in range(SEARCH_RETRY_LIMIT)] loop and the
    [return None] after it. *)
Fixpoint select_attempts (attempts : nat) (search_results : list Candidate)
    (user_data : list (str * str)) : M (option Z) :=
  match attempts with
  | O => ret None
  | S attempts' =>
      content <- _call_ollama_chat best_search_msg user_data ;;
      chosen <- check_reply content search_results ;;
      match chosen with
      | Some best_id => ret (Some best_id)
      | None => select_attempts attempts' search_results user_data
      end
  end.

Definition select_best_search_result_id (search_results : list Candidate)
    (user_prompt_content generated_query : str) : M (option Z) :=
  match search_results with
  | [] => ret None
  | _ :: _ =>
      let formatted_s_results := join [newline] (map format_result search_results) in
      let user_data := [(lit "s_results", formatted_s_results);
                        (lit "user_prompt", user_prompt_content);
                        (lit "search_query", generated_query)] in
      select_attempts SEARCH_RETRY_LIMIT search_results user_data
  end.

Definition scrape_webpage_content (url : str) : M (option str) :=
  try_except
    (downloaded <- call (CallScrape url) (fun before => trafilatura W before url) ;;
     match downloaded with
     | Extracted (Some text) => if truthy text then ret (Some text) else ret None
     | Extracted None | FetchFailed => ret None
     | ScrapeRaises e => raise e
     end)
    except_Exception.

Definition is_content_relevant (page_text user_prompt_content generated_query : str)
    : M bool :=
  let user_data := relevance_user_data page_text user_prompt_content generated_query in
  content <- _call_ollama_chat contains_data_msg user_data ;;
  ret (says_true content).

(** Lines 294-313: which result is taken out of [available_results];
    [None] is the [break]. *)
Definition take_result (best_result_id : option Z) (available_results : list Candidate)
    : option (Candidate * list Candidate) :=
  match best_result_id with
  | None => pop available_results 0
  | Some b =>
      match pop available_results b with
      | Some taken => Some taken
      | None (* IndexError *) => pop available_results 0
      end
  end.

(** Lines 282-333: the loop, [rounds] iterations at most. *)
Fixpoint try_results (rounds : nat) (available_results : list Candidate)
    (last_user_prompt_content generated_query : str) : M (option str) :=
  match rounds with
  | O => ret None
  | S rounds' =>
      match available_results with
      | [] => ret None
      | _ :: _ =>
          best_result_id <- select_best_search_result_id available_results
                              last_user_prompt_content generated_query ;;
          match take_result best_result_id available_results with
          | None => ret None
          | Some (selected_result_details, remaining) =>
              let page_url := link selected_result_details in
              page_content <- scrape_webpage_content page_url ;;
              match page_content with
              | Some text =>
                  relevant <- is_content_relevant text last_user_prompt_content
                                generated_query ;;
                  if relevant then ret (Some text)
                  else try_results rounds' remaining last_user_prompt_content
                         generated_query
              | None =>
                  try_results rounds' remaining last_user_prompt_content generated_query
              end
          end
      end
  end.

Definition run_ai_search_pipeline (last_user_prompt_content : str) : M (option str) :=
  generated_query <- generate_search_query last_user_prompt_content ;;
  match generated_query with
  | None => ret None
  | Some q =>
      if negb (truthy q) then ret None
      else
        search_results_list <- perform_duckduckgo_search q ;;
        match search_results_list with
        | [] => ret None
        | _ :: _ =>
            try_results (Nat.min (List.length search_results_list) SEARCH_RETRY_LIMIT)
              search_results_list last_user_prompt_content q
        end
  end.

End Program.

(** ** The final answer and the REPL *)

Definition streaming_error_message : str :=
  [newline] ++ lit "[ERROR] Sorry, I encountered a problem while generating my response.".

Definition critical_error_message : str :=
  [newline] ++ lit "[CRITICAL ERROR] An unexpected error occurred. Please check logs. Restarting loop if possible.".

(** Lines 411-414. *)
Definition prompt_with_context (retrieved_context original : str) : str :=
  lit "Based on the following information: " ++ [newline] ++
  lit "---BEGIN INFO---" ++ [newline] ++ retrieved_context ++ [newline] ++
  lit "---END INFO---" ++ [newline; newline] ++
  lit "Please answer this question or address this request: " ++
  [dquote] ++ original ++ [dquote].

(** Lines 422-426. *)
Definition prompt_informing_failed_search (original : str) : str :=
  lit "I tried to find information on the web to answer your request: " ++
  [dquote] ++ original ++ [dquote] ++
  lit ", but I couldn't find relevant information or the search failed. " ++
  lit "Please answer based on your general knowledge, or state that you couldn't find the specific information.".

(** What [input()] does when it is reached: a line, or an exception
    (EOFError at the end of the input, KeyboardInterrupt). *)
Inductive Keyboard :=
| Line (s : str)
| InputRaises (e : exn).

Inductive LoopControl := Continue | Break.

Fixpoint print_tokens (tokens : list str) : M unit :=
  match tokens with
  | [] => ret tt
  | token :: later => print token ;; print_tokens later
  end.

Section Repl.

Variable W : World.

Definition stream_and_record_assistant_response : M unit :=
  h <- get_history ;;
  match h with
  | [] => ret tt
  | _ :: _ =>
      try_except
        (response_stream <- call (CallStream h) (fun before => ollama_stream W before h) ;;
         match response_stream with
         | StreamRefused e => raise e
         | StreamTokens tokens failure =>
             println ([newline] ++ lit "ASSISTANT:") ;;
             print_tokens tokens ;;
             match failure with
             | Some e => raise e
             | None =>
                 append_turn {| role := assistant; content := List.concat tokens |} ;;
                 println [newline; newline]
             end
         end)
        (fun e => if is_Exception e then Some (println streaming_error_message)
                  else None)
  end.

(** Lines 400-435: what one iteration does once [should_search_web] has
    returned [decision]. *)
Definition answer_turn (decision : bool) (last_user_prompt_content : str) : M unit :=
  (if decision then
     retrieved_context <- run_ai_search_pipeline W last_user_prompt_content ;;
     current_user_message_entry <- pop_turn ;;
     let original := content current_user_message_entry in
     match retrieved_context with
     | Some ctx =>
         if truthy ctx
         then append_turn {| role := user; content := prompt_with_context ctx original |}
         else append_turn {| role := user; content := prompt_informing_failed_search original |}
     | None =>
         append_turn {| role := user; content := prompt_informing_failed_search original |}
     end
   else ret tt) ;;
  stream_and_record_assistant_response.

Definition input (k : Keyboard) : M str :=
  print (lit "USER: " ++ [newline]) ;;
  match k with
  | Line s => ret s
  | InputRaises e => raise e
  end.

(** Lines 387-435: the [try] block of one iteration. *)
Definition loop_body (k : Keyboard) : M LoopControl :=
  user_input <- input k ;;
  if PyStr.eqb (lower user_input) (lit "quit") || PyStr.eqb (lower user_input) (lit "exit")
  then ret Break
  else if negb (truthy (strip user_input)) then ret Continue
  else
    append_turn {| role := user; content := user_input |} ;;
    let last_user_prompt_content := user_input in
    decision <- should_search_web W (AsStr last_user_prompt_content) ;;
    answer_turn decision last_user_prompt_content ;;
    ret Continue.

(** One iteration with its two handlers. *)
Definition main_iteration (k : Keyboard) : M LoopControl :=
  try_except (loop_body k)
    (fun e => match e with
              | KeyboardInterrupt => Some (ret Break)
              | _ => Some (println critical_error_message ;; ret Continue)
              end).

(** The [while True] loop, run on what the keyboard delivers. *)
Fixpoint main (keyboard : list Keyboard) : M unit :=
  match keyboard with
  | [] => ret tt
  | k :: later =>
      control <- main_iteration k ;;
      match control with
      | Break => ret tt
      | Continue => main later
      end
  end.

(** The state at start-up: [conversation_history = [sys_msgs.asistant_msg]]. *)
Definition initial_state : State :=
  {| conversation_history := [asistant_msg W]; stdout := []; calls := [] |}.

End Repl.

(** ** Observations on a run *)

Definition is_selection_call (c : Call) : bool :=
  match c with CallChat best_search_msg _ => true | _ => false end.

(** The number of candidate-selection requests sent to the language model. *)
Definition selection_calls (cs : list Call) : nat :=
  List.length (filter is_selection_call cs).

(** The URLs handed to the scraper, in the order of the calls. *)
Fixpoint scraped_urls (cs : list Call) : list str :=
  match cs with
  | [] => []
  | CallScrape url :: later => url :: scraped_urls later
  | _ :: later => scraped_urls later
  end.

(** The exception with which an answer of the streaming call fails. *)
Definition stream_failure (s : Streamed) : option exn :=
  match s with
  | StreamRefused e => Some e
  | StreamTokens _ failure => failure
  end.

Definition is_user (t : Turn) : bool := Role_eqb (role t) user.

(** No two neighbouring turns are both user turns. *)
Fixpoint no_adjacent_users (h : list Turn) : bool :=
  match h with
  | a :: (b :: _) as later => negb (is_user a && is_user b) && no_adjacent_users later
  | _ => true
  end.

(** The role of the last turn. *)
Definition last_role (h : list Turn) : option Role :=
  match pop h (-1) with
  | Some (t, _) => Some (role t)
  | None => None
  end.


(** ** Relations between the state before and after a computation *)

(** [respects R m]: whatever its outcome, [m] takes a state to one that is
    in relation [R] with it. *)
Definition respects (R : State -> State -> Prop) {A} (m : M A) : Prop :=
  forall st, R st (snd (m st)).

(** The conversation is what it was. *)
Definition same_history (before after : State) : Prop :=
  conversation_history after = conversation_history before.

(** At most [n] selection requests were added. *)
Definition selections_within (n : nat) (before after : State) : Prop :=
  (selection_calls (calls after) <= selection_calls (calls before) + n)%nat.

(** [m] adds at most [n] selection requests. *)
Definition adds_selections (n : nat) {A} (m : M A) : Prop :=
  forall st, selections_within n st (snd (m st)).

(** ** Further observations *)

(** What [_call_ollama_chat] and [_call_ollama_decide] return for an answer
    of the model: an Exception becomes [None], anything else that is raised
    goes through. *)
Definition helper_outcome (answer : result str) : result (option str) :=
  match answer with
  | Ok reply => Ok (Some reply)
  | Raise e => if is_Exception e then Ok None else Raise e
  end.

(** What [scrape_webpage_content] returns for an answer of trafilatura. *)
Definition scrape_outcome (answer : Scraped) : result (option str) :=
  match answer with
  | Extracted (Some text) => Ok (if truthy text then Some text else None)
  | Extracted None | FetchFailed => Ok None
  | ScrapeRaises e => if is_Exception e then Ok None else Raise e
  end.

(** What [perform_duckduckgo_search] returns for an answer of the search. *)
Definition search_outcome (answer : Searched) : result (list Candidate) :=
  match answer with
  | Page divs => Ok (parse_results 0 divs)
  | RequestRaises e => if is_RequestException e then Ok [] else Raise e
  | ParseRaises e => Raise e
  end.

Definition is_quote (c : ascii) : bool := Ascii.eqb c dquote || Ascii.eqb c squote.

Definition user_turn (typed : str) : Turn := {| role := user; content := typed |}.

(** A result block that the parser keeps: it has a title anchor with a
    link. *)
Definition complete (d : ResultDiv) : bool :=
  match title_tag d with
  | Some a => match href a with Some l => truthy l | None => false end
  | None => false
  end.

(** Lines 187-191: what the selection request carries. *)
Definition selection_user_data (search_results : list Candidate)
    (user_prompt_content generated_query : str) : list (str * str) :=
  [(lit "s_results", join [newline] (map format_result search_results));
   (lit "user_prompt", user_prompt_content);
   (lit "search_query", generated_query)].

(** The number of calls of one kind. *)
Definition count_calls (kind : Call -> bool) (cs : list Call) : nat :=
  List.length (filter kind cs).

Definition is_scrape_call (c : Call) : bool :=
  match c with CallScrape _ => true | _ => false end.

Definition any_call (c : Call) : bool := true.

(** [m] adds at most [n] calls of the kind. *)
Definition adds_calls (kind : Call -> bool) (n : nat) {A} (m : M A) : Prop :=
  forall st, (count_calls kind (calls (snd (m st))) <= count_calls kind (calls st) + n)%nat.

(** Neither the conversation nor the terminal is touched. *)
Definition same_session (before after : State) : Prop :=
  conversation_history after = conversation_history before /\
  stdout after = stdout before.

(** The state once [lines] were printed. *)
Definition printed (lines : list str) (st : State) : State :=
  {| conversation_history := conversation_history st;
     stdout := stdout st ++ lines; calls := calls st |}.

(** What [input()] prints before it reads. *)
Definition input_prompt : str := lit "USER: " ++ [newline].


(** Is there text to be had from this answer of trafilatura? *)
Definition scraped_text (s : Scraped) : option str :=
  match s with
  | Extracted (Some text) => if truthy text then Some text else None
  | _ => None
  end.

(** ** The fallback order, in the words of the specification *)



(** The page of [c] has the text [text], and the model finds it relevant. *)
Definition relevant_content (W : World) (c : Candidate) (text p q : str) : Prop :=
  exists before before',
    trafilatura W before (link c) = Extracted (Some text) /\ text <> [] /\
    says_true (content_of (ollama_chat W before' contains_data_msg
                             (relevance_user_data text p q))) = true.

(** The page of [c] gave no text, or a text that the model did not find
    relevant. *)
Definition no_relevant_content (W : World) (c : Candidate) (p q : str) : Prop :=
  exists before,
    scrape_outcome (trafilatura W before (link c)) = Ok None \/
    exists text before',
      scrape_outcome (trafilatura W before (link c)) = Ok (Some text) /\
      says_true (content_of (ollama_chat W before' contains_data_msg
                               (relevance_user_data text p q))) = false.

(** The exception [e] is not an Exception, such as a KeyboardInterrupt, and
    a chat request or a page fetch raised it: [except Exception] lets it pass
    (lines 52 and 239). *)
Definition interrupts (W : World) (e : exn) : Prop :=
  is_Exception e = false /\
  ((exists before p ud, ollama_chat W before p ud = Raise e) \/
   (exists before url, trafilatura W before url = ScrapeRaises e)).

(** The exception [e] was raised by a service and no handler stops it: it
    interrupts a chat request or a page fetch, or the search request raised
    it and it is not a RequestException (line 139), or the parse of the
    search page raised it (lines 143-168, outside the [try]). *)
Definition escapes (W : World) (e : exn) : Prop :=
  interrupts W e \/
  (is_RequestException e = false /\
   exists before query, duckduckgo W before query = RequestRaises e) \/
  (exists before query, duckduckgo W before query = ParseRaises e).

(** One round of either loop, once the selector has answered and the first
    result has been taken: the page is fetched and judged. *)
Definition judged (W : World) (first : Candidate) (p q : str) (st1 : State)
    : result (option str) * State :=
  (found <- (page <- scrape_webpage_content W (link first) ;;
             match page with
             | Some text =>
                 relevant <- is_content_relevant W text p q ;;
                 ret (if relevant then Some text else None)
             | None => ret None
             end) ;;
   ret found) st1.

(** ** Worlds used to run the program on concrete inputs *)

(** A missing reply of the model is a ConnectionError, a missing page a
    RequestException. *)
Definition reply_or_error (chat_reply : option str) : result str :=
  match chat_reply with
  | Some reply => Ok reply
  | None => Raise ConnectionError
  end.

Definition page_or_error (page : option (list ResultDiv)) : Searched :=
  match page with
  | Some divs => Page divs
  | None => RequestRaises RequestException
  end.

(** A world that answers every request of one kind in the same way. *)
Definition constant_world (chat_reply : option str) (page : option (list ResultDiv))
    (scraped : Scraped) (streamed : Streamed) : World :=
  {| asistant_msg := {| role := system; content := lit "You are a helpful assistant." |};
     ollama_chat := fun _ _ _ => reply_or_error chat_reply;
     ollama_decide := fun _ _ _ => reply_or_error chat_reply;
     duckduckgo := fun _ _ => page_or_error page;
     trafilatura := fun _ _ => scraped;
     ollama_stream := fun _ _ => streamed |}.

(** A complete result block and one without its title anchor. *)
Definition full_div (name : string) : ResultDiv :=
  {| title_tag := Some {| href := Some (lit "https://example.org/" ++ lit name);
                          anchor_text := lit name |};
     snippet_tag := None |}.

Definition bare_div : ResultDiv := {| title_tag := None; snippet_tag := None |}.

(** The model never answers with a number, three results are found, no page
    can be fetched and the final answer breaks off after one token. *)
Definition stubborn_world : World :=
  constant_world (Some (lit "none"))
    (Some [full_div "a"; full_div "b"; full_div "c"])
    FetchFailed
    (StreamTokens [lit "Hel"] (Some ConnectionError)).

(** The first result block of the page has no title anchor. *)
Definition gapped_world : World :=
  constant_world None (Some [bare_div; full_div "b"]) FetchFailed
    (StreamRefused ConnectionError).

(** A world in which everything works: the model names the second result,
    every page has text and every text is found relevant. *)
Definition helpful_world : World :=
  {| asistant_msg := {| role := system; content := lit "You are a helpful assistant." |};
     ollama_chat := fun _ p _ =>
       match p with
       | query_msg => Ok (lit "weather in Paris")
       | best_search_msg => Ok (lit "1")
       | contains_data_msg => Ok (lit "True")
       | search_or_not_msg => Ok (lit "True")
       end;
     ollama_decide := fun _ _ _ => Ok (lit "True");
     duckduckgo := fun _ _ => Page [full_div "a"; full_div "b"; full_div "c"];
     trafilatura := fun _ url => Extracted (Some (lit "Sunny, 21 degrees. " ++ url));
     ollama_stream := fun _ _ => StreamTokens [lit "It is"; lit " sunny."] None |}.

(** Every page has text, and the model answers "none" to every request. *)
Definition talkative_world : World :=
  constant_world (Some (lit "none"))
    (Some [full_div "a"; full_div "b"; full_div "c"])
    (Extracted (Some (lit "Some text.")))
    (StreamTokens [lit "Hel"; lit "lo"] None).

(** Every request is interrupted from the keyboard while it is under way. *)
Definition interrupted_world : World :=
  {| asistant_msg := {| role := system; content := lit "You are a helpful assistant." |};
     ollama_chat := fun _ _ _ => Raise KeyboardInterrupt;
     ollama_decide := fun _ _ _ => Raise KeyboardInterrupt;
     duckduckgo := fun _ _ => RequestRaises KeyboardInterrupt;
     trafilatura := fun _ _ => ScrapeRaises KeyboardInterrupt;
     ollama_stream := fun _ _ => StreamRefused KeyboardInterrupt |}.


(** ** Sanity checks of the embedding *)

Example lower_QUIT : lower (lit "QuIt") = lit "quit".
Proof. reflexivity. Qed.

Example strip_blank : strip (lit "   ") = [].
Proof. reflexivity. Qed.

Example strip_inner : strip (lit "  a b ") = lit "a b".
Proof. reflexivity. Qed.

Example parse_int_padded : parse_int (lit " +1_0 ") = Some 10%Z.
Proof. reflexivity. Qed.

Example parse_int_word : parse_int (lit "ID: 1") = None.
Proof. reflexivity. Qed.

Example parse_int_neg : parse_int (lit "-3") = Some (-3)%Z.
Proof. reflexivity. Qed.

Example slice_inner : slice (lit "abcd") 1 (-1) = lit "bc".
Proof. reflexivity. Qed.

Example slice_one : slice (lit "a") 1 (-1) = [].
Proof. reflexivity. Qed.

Example of_int_12 : of_int 12 = lit "12".
Proof. reflexivity. Qed.

Example contains_true : contains (lit "true") (lower (lit "It is TRUE.")) = true.
Proof. reflexivity. Qed.

Example pop_middle : pop [1; 2; 3]%nat 1 = Some (2, [1; 3])%nat.
Proof. reflexivity. Qed.

Example pop_last : pop [1; 2; 3]%nat (-1) = Some (3, [1; 2])%nat.
Proof. reflexivity. Qed.

Example pop_out_of_range : pop [1; 2; 3]%nat 3 = None.
Proof. reflexivity. Qed.

(** * Properties *)

(** ** The calls to the services *)

Lemma _call_ollama_chat_run (W : World) (p : Prompt) (user_data : list (str * str))
    (st : State) :
  _call_ollama_chat W p user_data st
  = (helper_outcome (ollama_chat W (calls st) p user_data),
     record_call (CallChat p user_data) st).
Proof.
  unfold _call_ollama_chat, try_except, bind, call, lift, except_Exception, helper_outcome.
  destruct (ollama_chat W (calls st) p user_data) as [reply|e]; [reflexivity|].
  unfold raise. destruct (is_Exception e); reflexivity.
Qed.

Lemma _call_ollama_decide_run (W : World) (p : Prompt) (last : Turn) (st : State) :
  _call_ollama_decide W p last st
  = (helper_outcome (ollama_decide W (calls st) p last),
     record_call (CallDecide p last) st).
Proof.
  unfold _call_ollama_decide, try_except, bind, call, lift, except_Exception, helper_outcome.
  destruct (ollama_decide W (calls st) p last) as [reply|e]; [reflexivity|].
  unfold raise. destruct (is_Exception e); reflexivity.
Qed.

Lemma scrape_webpage_content_run (W : World) (url : str) (st : State) :
  scrape_webpage_content W url st
  = (scrape_outcome (trafilatura W (calls st) url), record_call (CallScrape url) st).
Proof.
  unfold scrape_webpage_content, try_except, bind, call, except_Exception, scrape_outcome.
  destruct (trafilatura W (calls st) url) as [| [text|] |e]; try reflexivity.
  - destruct (truthy text); reflexivity.
  - unfold raise. destruct (is_Exception e); reflexivity.
Qed.

Lemma perform_duckduckgo_search_run (W : World) (query : str) (st : State) :
  perform_duckduckgo_search W query st
  = (search_outcome (duckduckgo W (calls st) query), record_call (CallSearch query) st).
Proof.
  unfold perform_duckduckgo_search, bind, call, search_outcome.
  destruct (duckduckgo W (calls st) query) as [e|e|divs]; [|reflexivity|reflexivity].
  destruct (is_RequestException e); reflexivity.
Qed.

(** ** Strings and lists *)

Lemma startswith_head (c : ascii) (s : str) : startswith (c :: s) [c] = true.
Proof. simpl. now rewrite Ascii.eqb_refl. Qed.

Lemma endswith_last (c : ascii) (s : str) : endswith (s ++ [c]) [c] = true.
Proof.
  unfold endswith. rewrite rev_app_distr. simpl. now rewrite Ascii.eqb_refl.
Qed.

Lemma startswith_other (c d : ascii) (s : str) :
  c <> d -> startswith (c :: s) [d] = false.
Proof.
  intros Hcd. simpl. destruct (Ascii.eqb d c) eqn:E; [|reflexivity].
  apply Ascii.eqb_eq in E. congruence.
Qed.

(** [s[1:-1]] drops the two ends. *)
Lemma slice_between (c d : ascii) (m : str) : slice (c :: m ++ [d]) 1 (-1) = m.
Proof.
  unfold slice, clip, len. simpl List.length. rewrite length_app. simpl List.length.
  change (1 <? 0)%Z with false. change (-1 <? 0)%Z with true. cbv iota.
  set (n := List.length m).
  rewrite Z.min_l by lia. rewrite Z.max_r by lia.
  change (Z.to_nat 1) with 1%nat. simpl skipn.
  replace (Z.to_nat (-1 + Z.of_nat (S (n + 1)) - 1)) with n by lia.
  subst n. rewrite firstn_app, Nat.sub_diag, firstn_all. simpl. apply app_nil_r.
Qed.

(** [s[:n]] on a string that is short enough is the string. *)
Lemma slice_prefix_short (s : str) (n : Z) :
  (len s <= n)%Z -> slice s 0 n = s.
Proof.
  unfold slice, clip, len. intros Hn.
  change (0 <? 0)%Z with false. cbv iota.
  assert (Hneg : (n <? 0)%Z = false) by (apply Z.ltb_ge; lia).
  rewrite Hneg, (Z.min_l 0), (Z.min_r n) by lia.
  simpl skipn. rewrite Z.sub_0_r, Nat2Z.id. apply firstn_all.
Qed.

(** [s[:n]] on a longer string is its first [n] characters. *)
Lemma slice_prefix_long (s : str) (n : Z) :
  (0 <= n < len s)%Z -> slice s 0 n = firstn (Z.to_nat n) s.
Proof.
  unfold slice, clip, len. intros Hn.
  change (0 <? 0)%Z with false. cbv iota.
  assert (Hneg : (n <? 0)%Z = false) by (apply Z.ltb_ge; lia).
  rewrite Hneg, (Z.min_l 0), (Z.min_l n) by lia.
  simpl skipn. now rewrite Z.sub_0_r.
Qed.

Lemma pop_last_app (A : Type) (l : list A) (x : A) : pop (l ++ [x]) (-1) = Some (x, l).
Proof.
  unfold pop. rewrite length_app. simpl List.length.
  change (-1 <? 0)%Z with true. cbv iota.
  replace (-1 + Z.of_nat (List.length l + 1))%Z with (Z.of_nat (List.length l)) by lia.
  replace ((0 <=? Z.of_nat (List.length l)) && (Z.of_nat (List.length l) <? Z.of_nat (List.length l + 1)))%Z
    with true by (symmetry; apply andb_true_iff; split; [apply Z.leb_le | apply Z.ltb_lt]; lia).
  rewrite Nat2Z.id, nth_error_app2, Nat.sub_diag by lia.
  change (nth_error [x] 0) with (Some x). cbv iota.
  rewrite firstn_app, Nat.sub_diag, firstn_all.
  rewrite skipn_all2 by (rewrite length_app; simpl; lia).
  change (firstn 0 [x]) with (@nil A). now rewrite !app_nil_r.
Qed.

Lemma pop_nil (A : Type) (i : Z) : pop (@nil A) i = None.
Proof.
  unfold pop. simpl. destruct (i <? 0)%Z eqn:E.
  - rewrite Z.add_0_r. apply Z.ltb_lt in E.
    replace (0 <=? i)%Z with false by (symmetry; apply Z.leb_gt; lia). reflexivity.
  - rewrite andb_comm. now rewrite E.
Qed.

Lemma pop_first (A : Type) (x : A) (l : list A) : pop (x :: l) 0 = Some (x, l).
Proof.
  unfold pop. replace (0 <? 0)%Z with false by reflexivity.
  replace ((0 <=? 0) && (0 <? Z.of_nat (List.length (x :: l))))%Z with true
    by (symmetry; apply andb_true_iff; split; [reflexivity | apply Z.ltb_lt; simpl; lia]).
  reflexivity.
Qed.

(** A list is empty or ends with some element. *)
Lemma list_ends (A : Type) (l : list A) : l = [] \/ exists l' x, l = l' ++ [x].
Proof.
  destruct l as [|a l]; [now left | right].
  destruct (exists_last (l := a :: l)) as [l' [x E]]; [discriminate | eauto].
Qed.

(** ** Quote stripping (lines 111-117) *)

Lemma unquote_pair (c : ascii) (m : str) : unquote c (c :: m ++ [c]) = m.
Proof.
  unfold unquote. rewrite startswith_head.
  change (c :: m ++ [c]) with ((c :: m) ++ [c]) at 1. rewrite endswith_last.
  simpl. apply slice_between.
Qed.

Lemma unquote_other (c d : ascii) (s : str) : c <> d -> unquote d (c :: s) = c :: s.
Proof. intros Hcd. unfold unquote. now rewrite startswith_other. Qed.

Lemma quotes_differ : squote <> dquote.
Proof. discriminate. Qed.

(** A string between two single quotes loses them and nothing else. *)
Lemma strip_quotes_single (m : str) : strip_quotes (squote :: m ++ [squote]) = m.
Proof.
  unfold strip_quotes. rewrite (unquote_other _ quotes_differ). apply unquote_pair.
Qed.

(** A string between two double quotes loses them, and then a pair of
    single quotes when that is what remains. *)
Lemma strip_quotes_double (m : str) :
  strip_quotes (dquote :: m ++ [dquote]) = unquote squote m.
Proof. unfold strip_quotes. now rewrite unquote_pair. Qed.

Lemma generate_search_query_result (W : World) (prompt q : str) (st : State) :
  ollama_chat W (calls st) query_msg (user_data_for_llm prompt) = Ok q ->
  fst (generate_search_query W prompt st) = Ok (Some (strip_quotes q)).
Proof.
  intros Hq. unfold generate_search_query, bind. rewrite _call_ollama_chat_run, Hq.
  cbn [helper_outcome]. destruct q; reflexivity.
Qed.

(** C4, as the code has it: when the query-synthesis call returns the string
    [q], generate_search_query returns [q] with a pair of double quotes
    taken from its ends and then a pair of single quotes taken from the ends
    of what is left.  So a string whose ends are not the same quote
    character is returned unchanged, a single-quoted string loses only that
    pair whatever is inside, a double-quoted string loses only that pair
    unless a single-quoted string is inside, and a single-quoted string
    inside double quotes loses both pairs. *)
Theorem generate_search_query_quotes (W : World) (prompt q m : str) (st : State) :
  ollama_chat W (calls st) query_msg (user_data_for_llm prompt) = Ok q ->
  exists stripped,
    fst (generate_search_query W prompt st) = Ok (Some stripped) /\
    (startswith q [dquote] && endswith q [dquote] = false ->
     startswith q [squote] && endswith q [squote] = false -> stripped = q) /\
    (q = [squote] ++ m ++ [squote] -> stripped = m) /\
    (q = [dquote] ++ m ++ [dquote] ->
     startswith m [squote] && endswith m [squote] = false -> stripped = m) /\
    (q = [dquote; squote] ++ m ++ [squote; dquote] -> stripped = m).
Proof.
  intros Hq. exists (strip_quotes q). split; [now apply generate_search_query_result|].
  repeat split.
  - intros Hd Hs. unfold strip_quotes, unquote. now rewrite Hd, Hs.
  - intros ->. apply strip_quotes_single.
  - intros -> Hs. simpl app. rewrite strip_quotes_double. unfold unquote. now rewrite Hs.
  - intros ->. change ([dquote; squote] ++ m ++ [squote; dquote])
      with (dquote :: (squote :: m ++ [squote; dquote])).
    replace (squote :: m ++ [squote; dquote]) with ((squote :: m ++ [squote]) ++ [dquote])
      by (simpl; now rewrite <- app_assoc).
    rewrite strip_quotes_double. apply unquote_pair.
Qed.

(** C4, on a model that answers with a single-quoted word inside double
    quotes: both pairs go. *)
Lemma generate_search_query_quotes_witness :
  exists stripped,
    fst (generate_search_query
           (constant_world (Some ([dquote; squote] ++ lit "python" ++ [squote; dquote]))
              None FetchFailed (StreamRefused ConnectionError))
           (lit "what is python") (initial_state stubborn_world))
    = Ok (Some stripped) /\ stripped = lit "python".
Proof.
  destruct (@generate_search_query_quotes
              (constant_world (Some ([dquote; squote] ++ lit "python" ++ [squote; dquote]))
                 None FetchFailed (StreamRefused ConnectionError))
              (lit "what is python")
              ([dquote; squote] ++ lit "python" ++ [squote; dquote])
              (lit "python") (initial_state stubborn_world) eq_refl)
    as [stripped [Hrun [_ [_ [_ Hboth]]]]].
  exists stripped. split; [exact Hrun | exact (Hboth eq_refl)].
Defined.

(** C4 as the claim has it fails: when the model answers with a
    single-quoted word inside double quotes, generate_search_query returns
    the bare word: the inner pair is gone as well. *)
Lemma nested_quotes_both_stripped :
  fst (generate_search_query
         (constant_world (Some ([dquote; squote] ++ lit "python" ++ [squote; dquote]))
            None FetchFailed (StreamRefused ConnectionError))
         (lit "what is python") (initial_state stubborn_world))
  = Ok (Some (lit "python")) /\
  lit "python" <> [squote] ++ lit "python" ++ [squote].
Proof. split; [reflexivity | discriminate]. Qed.

(** ** Truncation of the page text (line 249) *)

Lemma truncated_page_text_short (page_text : str) :
  (len page_text <= max_text_len)%Z -> truncated_page_text page_text = page_text.
Proof.
  intros Hlen. unfold truncated_page_text.
  rewrite slice_prefix_short by exact Hlen.
  replace (len page_text >? max_text_len)%Z with false.
  - apply app_nil_r.
  - symmetry. rewrite Z.gtb_ltb. apply Z.ltb_ge. exact Hlen.
Qed.

Lemma truncated_page_text_long (page_text : str) :
  (len page_text > max_text_len)%Z ->
  truncated_page_text page_text = firstn (Z.to_nat max_text_len) page_text ++ lit "...".
Proof.
  intros Hlen. unfold truncated_page_text.
  rewrite slice_prefix_long by (unfold max_text_len in *; lia).
  replace (len page_text >? max_text_len)%Z with true; [reflexivity|].
  symmetry. rewrite Z.gtb_ltb. apply Z.ltb_lt. lia.
Qed.

(** C8: is_content_relevant sends one request, and the page text in it is
    the text itself when it has at most 8000 characters, and its first 8000
    characters followed by "..." when it has more. *)
Theorem is_content_relevant_truncates (W : World)
    (page_text user_prompt_content generated_query : str) (st : State) :
  exists included,
    calls (snd (is_content_relevant W page_text user_prompt_content generated_query st))
    = calls st ++ [CallChat contains_data_msg
                     [(lit "page_text", included);
                      (lit "user_prompt", user_prompt_content);
                      (lit "search_query", generated_query)]] /\
    ((len page_text <= 8000)%Z -> included = page_text) /\
    ((len page_text > 8000)%Z ->
     included = firstn (Z.to_nat 8000) page_text ++ lit "..." /\
     len included = 8003%Z).
Proof.
  exists (truncated_page_text page_text). split.
  { unfold is_content_relevant, bind. rewrite _call_ollama_chat_run.
    destruct (helper_outcome _); reflexivity. }
  split.
  - apply truncated_page_text_short.
  - intros Hlen. rewrite truncated_page_text_long by exact Hlen. split; [reflexivity|].
    unfold len in *. rewrite length_app, length_firstn. unfold max_text_len in *.
    simpl List.length. lia.
Qed.

(** C8 on a page of 8001 characters and on a page of three. *)
Lemma is_content_relevant_truncates_witness :
  (exists included,
     calls (snd (is_content_relevant stubborn_world (repeat "a"%char (Z.to_nat 8001))
                   (lit "p") (lit "q") (initial_state stubborn_world)))
     = [CallChat contains_data_msg
          [(lit "page_text", included); (lit "user_prompt", lit "p");
           (lit "search_query", lit "q")]] /\
     included = repeat "a"%char (Z.to_nat 8000) ++ lit "...") /\
  (exists included,
     calls (snd (is_content_relevant stubborn_world (lit "abc")
                   (lit "p") (lit "q") (initial_state stubborn_world)))
     = [CallChat contains_data_msg
          [(lit "page_text", included); (lit "user_prompt", lit "p");
           (lit "search_query", lit "q")]] /\
     included = lit "abc").
Proof.
  split.
  - destruct (is_content_relevant_truncates stubborn_world
                (repeat "a"%char (Z.to_nat 8001)) (lit "p") (lit "q")
                (initial_state stubborn_world)) as [included [Hcall [_ Hlong]]].
    exists included. split; [exact Hcall|].
    destruct Hlong as [Hincluded _]; [vm_compute; reflexivity|].
    rewrite Hincluded. vm_compute. reflexivity.
  - destruct (is_content_relevant_truncates stubborn_world
                (lit "abc") (lit "p") (lit "q")
                (initial_state stubborn_world)) as [included [Hcall [Hshort _]]].
    exists included. split; [exact Hcall|].
    apply Hshort. vm_compute. discriminate.
Defined.

(** ** The short circuit of the search decision (lines 87-89) *)

(** C7: on a history that is empty or whose last turn is not a user turn,
    should_search_web returns False and the state, the list of external
    calls included, is what it was. *)
Theorem should_search_web_short_circuit (W : World) (h : list Turn) (st : State) :
  h = [] \/ (exists h' t, h = h' ++ [t] /\ role t <> user) ->
  should_search_web W (AsTurns h) st = (Ok false, st).
Proof.
  intros [-> | [h' [t [-> Hrole]]]]; unfold should_search_web.
  - now rewrite pop_nil.
  - rewrite pop_last_app. destruct (role t); try reflexivity. now elim Hrole.
Qed.

(** C7 on a history that ends with an assistant turn. *)
Lemma should_search_web_short_circuit_witness :
  should_search_web stubborn_world
    (AsTurns [asistant_msg stubborn_world;
              {| role := user; content := lit "hello" |};
              {| role := assistant; content := lit "hi" |}])
    (initial_state stubborn_world)
  = (Ok false, initial_state stubborn_world).
Proof.
  apply should_search_web_short_circuit. right.
  exists [asistant_msg stubborn_world; {| role := user; content := lit "hello" |}],
         {| role := assistant; content := lit "hi" |}.
  split; [reflexivity | discriminate].
Defined.

(** ** Counting the selection requests *)

Lemma selection_calls_app (cs ds : list Call) :
  selection_calls (cs ++ ds) = (selection_calls cs + selection_calls ds)%nat.
Proof. unfold selection_calls. now rewrite filter_app, length_app. Qed.

Lemma scraped_urls_app (cs ds : list Call) :
  scraped_urls (cs ++ ds) = scraped_urls cs ++ scraped_urls ds.
Proof.
  induction cs as [|c cs IH]; [reflexivity|].
  destruct c; simpl; now rewrite IH.
Qed.

(** One attempt leaves the state alone once the reply is there, and keeps
    only an index of the list. *)
Lemma check_reply_outcome (W : World) (content : option str)
    (search_results : list Candidate) (st : State) :
  check_reply content search_results st = (Ok None, st) \/
  exists best_id,
    check_reply content search_results st = (Ok (Some best_id), st) /\
    (0 <= best_id < Z.of_nat (List.length search_results))%Z.
Proof.
  unfold check_reply. destruct content as [c|]; [|now left].
  destruct (truthy c); [|now left].
  unfold try_except, bind, int. destruct (parse_int c) as [z|]; [|now left].
  cbn. destruct ((0 <=? z) && (z <? Z.of_nat (List.length search_results)))%Z eqn:E.
  - right. exists z. split; [reflexivity|].
    apply andb_true_iff in E. destruct E as [E1 E2].
    apply Z.leb_le in E1. apply Z.ltb_lt in E2. lia.
  - now left.
Qed.

Lemma helper_outcome_raise (answer : result str) (e : exn) :
  helper_outcome answer = Raise e -> answer = Raise e /\ is_Exception e = false.
Proof.
  destruct answer as [reply|e']; [discriminate|]. cbn.
  destruct (is_Exception e') eqn:He; [discriminate|]. intros H. injection H as <-. now split.
Qed.

Lemma select_attempts_outcome (W : World) (attempts : nat)
    (search_results : list Candidate) (user_data : list (str * str)) (st : State) :
  let '(r, st') := select_attempts W attempts search_results user_data st in
  conversation_history st' = conversation_history st /\
  stdout st' = stdout st /\
  scraped_urls (calls st') = scraped_urls (calls st) /\
  ((r = Ok None /\
    selection_calls (calls st') = (selection_calls (calls st) + attempts)%nat) \/
   (exists best_id,
      r = Ok (Some best_id) /\
      (0 <= best_id < Z.of_nat (List.length search_results))%Z /\
      (selection_calls (calls st') <= selection_calls (calls st) + attempts)%nat) \/
   (exists e before,
      r = Raise e /\ is_Exception e = false /\
      ollama_chat W before best_search_msg user_data = Raise e /\
      (selection_calls (calls st') <= selection_calls (calls st) + attempts)%nat)).
Proof.
  revert st. induction attempts as [|n IH]; intros st.
  - cbn. repeat split. left. split; [reflexivity | lia].
  - cbn [select_attempts]. unfold bind at 1. rewrite _call_ollama_chat_run.
    set (st1 := record_call (CallChat best_search_msg user_data) st).
    assert (Hsel : selection_calls (calls st1) = S (selection_calls (calls st))).
    { subst st1. cbn [calls record_call]. rewrite selection_calls_app. cbn. lia. }
    assert (Hurls : scraped_urls (calls st1) = scraped_urls (calls st)).
    { subst st1. cbn [calls record_call]. rewrite scraped_urls_app. cbn. apply app_nil_r. }
    destruct (helper_outcome (ollama_chat W (calls st) best_search_msg user_data))
      as [content|e] eqn:Hout.
    + unfold bind.
      destruct (check_reply_outcome W content search_results st1)
        as [Hnone | [best_id [Hsome Hrange]]].
      * rewrite Hnone. specialize (IH st1).
        destruct (select_attempts W n search_results user_data st1) as [r st'].
        destruct IH as [Hh [Hstd [Hu Hcases]]].
        repeat split; [exact Hh | exact Hstd | congruence |].
        destruct Hcases as [[-> Hcount] | [[b [-> [Hb Hcount]]] | [e [before [-> [He [Hraise Hcount]]]]]]].
        -- left. split; [reflexivity | lia].
        -- right. left. exists b. repeat split; [lia | lia | lia].
        -- right. right. exists e, before. repeat split; [exact He | exact Hraise | lia].
      * rewrite Hsome. cbv beta iota. unfold ret.
        repeat split; [exact Hurls|].
        right. left. exists best_id. repeat split; [lia | lia | lia].
    + apply helper_outcome_raise in Hout. destruct Hout as [Hraise He].
      repeat split; [exact Hurls|].
      right. right. exists e, (calls st). repeat split; [exact He | exact Hraise | lia].
Qed.

(** C6, as the code has it: given a list that is not empty,
    select_best_search_result_id returns an index of that list or, after
    exactly three selection requests, None; no Exception leaves it, since
    the ValueError of int() and every Exception of the request are caught.
    What can leave it is an exception that is not an Exception, such as a
    KeyboardInterrupt, raised while a selection request is under way. *)
Theorem select_best_search_result_id_in_range (W : World)
    (search_results : list Candidate) (user_prompt_content generated_query : str)
    (st : State) :
  search_results <> [] ->
  let '(r, st') := select_best_search_result_id W search_results user_prompt_content
                     generated_query st in
  (exists best_id,
     r = Ok (Some best_id) /\
     (0 <= best_id < Z.of_nat (List.length search_results))%Z) \/
  (r = Ok None /\
   selection_calls (calls st') = (selection_calls (calls st) + 3)%nat) \/
  (exists e before,
     r = Raise e /\ is_Exception e = false /\
     ollama_chat W before best_search_msg
       (selection_user_data search_results user_prompt_content generated_query)
     = Raise e).
Proof.
  intros Hne. unfold select_best_search_result_id.
  destruct search_results as [|c rest]; [now elim Hne|].
  match goal with
  | |- context [select_attempts W ?n ?l ?ud st] =>
      pose proof (select_attempts_outcome W n l ud st) as H;
      destruct (select_attempts W n l ud st) as [r st']
  end.
  destruct H as [_ [_ [_ [[-> Hcount] | [[b [-> [Hb _]]] | [e [before [-> [He [Hraise _]]]]]]]]]].
  - right. left. split; [reflexivity | exact Hcount].
  - left. exists b. split; [reflexivity | exact Hb].
  - right. right. exists e, before. repeat split; [exact He | exact Hraise].
Qed.

(** C6 as the claim has it fails: an interrupt that arrives during the
    selection request is not caught by [except Exception] and leaves
    select_best_search_result_id. *)
Lemma select_best_search_result_id_interrupted :
  fst (select_best_search_result_id interrupted_world (parse_results 0 [full_div "a"])
         (lit "p") (lit "q") (initial_state interrupted_world))
  = Raise KeyboardInterrupt.
Proof. reflexivity. Qed.

(** C6 on one search result and a model that never answers with a number. *)
Lemma select_best_search_result_id_in_range_witness :
  let '(r, st') :=
    select_best_search_result_id stubborn_world (parse_results 0 [full_div "a"])
      (lit "p") (lit "q") (initial_state stubborn_world) in
  (exists best_id, r = Ok (Some best_id) /\ (0 <= best_id < 1)%Z) \/
  (r = Ok None /\ selection_calls (calls st') = 3%nat) \/
  (exists e before,
     r = Raise e /\ is_Exception e = false /\
     ollama_chat stubborn_world before best_search_msg
       (selection_user_data (parse_results 0 [full_div "a"]) (lit "p") (lit "q"))
     = Raise e).
Proof.
  apply (@select_best_search_result_id_in_range stubborn_world
           (parse_results 0 [full_div "a"]) (lit "p") (lit "q")
           (initial_state stubborn_world)).
  discriminate.
Defined.

(** ** What a computation may do to the state *)

Section Frame.

(** [R before after]: a relation between the state a computation starts
    in and the state it ends in, whatever its outcome. *)
Variable R : State -> State -> Prop.
Hypothesis R_refl : forall st, R st st.
Hypothesis R_trans : forall a b c, R a b -> R b c -> R a c.

Lemma respects_ret A (a : A) : respects R (ret a).
Proof. intros st. apply R_refl. Qed.

Lemma respects_raise A (e : exn) : respects R (@raise A e).
Proof. intros st. apply R_refl. Qed.

Lemma respects_bind A B (m : M A) (k : A -> M B) :
  respects R m -> (forall a, respects R (k a)) -> respects R (bind m k).
Proof.
  intros Hm Hk st. unfold bind. specialize (Hm st).
  destruct (m st) as [[a|e] st1]; cbn in *.
  - eapply R_trans; [exact Hm | apply Hk].
  - exact Hm.
Qed.

Lemma respects_try_except A (m : M A) (handler : exn -> option (M A)) :
  respects R m -> (forall e h, handler e = Some h -> respects R h) ->
  respects R (try_except m handler).
Proof.
  intros Hm Hh st. unfold try_except. specialize (Hm st).
  destruct (m st) as [[a|e] st1]; cbn in *; [exact Hm|].
  destruct (handler e) as [h|] eqn:E; [|exact Hm].
  eapply R_trans; [exact Hm | now apply (Hh e h)].
Qed.

End Frame.

(** Steps through a computation built from [ret], [raise], [bind],
    [try_except] and the branches of the program. *)
Ltac frame_step refl trans :=
  first
    [ apply (@respects_ret _ refl)
    | apply (@respects_raise _ refl)
    | apply (@respects_bind _ trans); [ | intros ]
    | apply (@respects_try_except _ trans); [ | intros ]
    | match goal with
      | |- respects _ (match ?x with _ => _ end) => destruct x
      | |- respects _ (if ?b then _ else _) => destruct b
      end ].

Section Services.

(** A relation that holds when a call is recorded holds across the four
    functions that call a service. *)
Variable R : State -> State -> Prop.
Hypothesis R_record : forall c st, R st (record_call c st).

Lemma chat_respects (W : World) p user_data : respects R (_call_ollama_chat W p user_data).
Proof. intros st. rewrite _call_ollama_chat_run. apply R_record. Qed.

Lemma decide_respects (W : World) p last : respects R (_call_ollama_decide W p last).
Proof. intros st. rewrite _call_ollama_decide_run. apply R_record. Qed.

Lemma scrape_respects (W : World) url : respects R (scrape_webpage_content W url).
Proof. intros st. rewrite scrape_webpage_content_run. apply R_record. Qed.

Lemma search_respects (W : World) query : respects R (perform_duckduckgo_search W query).
Proof. intros st. rewrite perform_duckduckgo_search_run. apply R_record. Qed.

End Services.

Lemma same_history_refl st : same_history st st.
Proof. reflexivity. Qed.

Lemma same_history_record c st : same_history st (record_call c st).
Proof. reflexivity. Qed.

Lemma same_history_trans a b c : same_history a b -> same_history b c -> same_history a c.
Proof. unfold same_history. congruence. Qed.

Lemma call_same_history A (c : Call) (answer : list Call -> A) :
  respects same_history (call c answer).
Proof. intros st. reflexivity. Qed.

Lemma print_same_history (s : str) : respects same_history (print s).
Proof. intros st. reflexivity. Qed.

Lemma select_attempts_same_history (W : World) attempts search_results user_data :
  respects same_history (select_attempts W attempts search_results user_data).
Proof.
  intros st. pose proof (select_attempts_outcome W attempts search_results user_data st) as H.
  destruct (select_attempts W attempts search_results user_data st) as [r st'].
  exact (proj1 H).
Qed.

Lemma select_best_same_history (W : World) search_results p q :
  respects same_history (select_best_search_result_id W search_results p q).
Proof.
  unfold select_best_search_result_id. destruct search_results.
  - apply (@respects_ret _ same_history_refl).
  - apply select_attempts_same_history.
Qed.

Ltac frame_history :=
  repeat first
    [ apply call_same_history
    | apply print_same_history
    | apply (@chat_respects same_history same_history_record)
    | apply (@scrape_respects same_history same_history_record)
    | apply (@search_respects same_history same_history_record)
    | apply select_best_same_history
    | assumption
    | frame_step same_history_refl same_history_trans ].

Lemma try_results_same_history (W : World) rounds available p q :
  respects same_history (try_results W rounds available p q).
Proof.
  revert available. induction rounds as [|n IH]; intros available; cbn [try_results].
  - frame_history.
  - unfold is_content_relevant.
    destruct available as [|c rest]; [frame_history|].
    apply (@respects_bind _ same_history_trans);
      [apply select_best_same_history|].
    intros best. destruct (take_result best (c :: rest)) as [[chosen remaining]|].
    + pose proof (IH remaining). frame_history.
    + frame_history.
Qed.

Lemma run_ai_search_pipeline_same_history (W : World) p :
  respects same_history (run_ai_search_pipeline W p).
Proof.
  unfold run_ai_search_pipeline, generate_search_query.
  apply (@respects_bind _ same_history_trans); [frame_history|].
  intros [q|]; [|frame_history]. destruct (negb (truthy q)); [frame_history|].
  apply (@respects_bind _ same_history_trans); [frame_history|].
  intros [|c rest]; [frame_history|]. apply try_results_same_history.
Qed.

(** ** The budget of selection requests (lines 193 and 282) *)

Lemma adds_ret A (a : A) : adds_selections 0 (ret a).
Proof. intros st. unfold selections_within. cbn. lia. Qed.

Lemma adds_weaken A (a b : nat) (m : M A) :
  (a <= b)%nat -> adds_selections a m -> adds_selections b m.
Proof. intros Hab Hm st. specialize (Hm st). unfold selections_within in *. lia. Qed.

Lemma adds_bind A B (a b : nat) (m : M A) (k : A -> M B) :
  adds_selections a m -> (forall x, adds_selections b (k x)) ->
  adds_selections (a + b) (bind m k).
Proof.
  intros Hm Hk st. unfold bind. specialize (Hm st).
  destruct (m st) as [[x|e] st1]; cbn [snd] in *.
  - specialize (Hk x st1). unfold selections_within in *. lia.
  - unfold selections_within in *. lia.
Qed.

Lemma adds_call A (c : Call) (answer : list Call -> A) :
  is_selection_call c = false -> adds_selections 0 (call c answer).
Proof.
  intros Hc st. unfold selections_within, call, record_call. cbn [snd calls].
  rewrite selection_calls_app. unfold selection_calls at 2. cbn [filter].
  rewrite Hc. cbn [List.length]. lia.
Qed.

Lemma adds_select_best (W : World) search_results p q :
  adds_selections 3 (select_best_search_result_id W search_results p q).
Proof.
  unfold select_best_search_result_id. destruct search_results as [|c rest].
  - apply adds_weaken with (a := 0%nat); [lia | apply adds_ret].
  - intros st.
    match goal with
    | |- context [select_attempts W ?n ?l ?ud st] =>
        pose proof (select_attempts_outcome W n l ud st) as H;
        destruct (select_attempts W n l ud st) as [r st']
    end.
    unfold selections_within. cbn [snd].
    destruct H as [_ [_ [_ [[_ H] | [[b [_ [_ H]]] | [e [before [_ [_ [_ H]]]]]]]]]];
      unfold SEARCH_RETRY_LIMIT in H; lia.
Qed.

Lemma adds_chat_other (W : World) p user_data :
  is_selection_call (CallChat p user_data) = false ->
  adds_selections 0 (_call_ollama_chat W p user_data).
Proof.
  intros Hp st. rewrite _call_ollama_chat_run. unfold selections_within.
  cbn [snd record_call calls]. rewrite selection_calls_app.
  unfold selection_calls at 2. cbn [filter]. rewrite Hp. cbn [List.length]. lia.
Qed.

Lemma adds_search (W : World) query :
  adds_selections 0 (perform_duckduckgo_search W query).
Proof.
  intros st. rewrite perform_duckduckgo_search_run. unfold selections_within.
  cbn [snd record_call calls]. rewrite selection_calls_app. cbn. lia.
Qed.

Lemma adds_scrape (W : World) url : adds_selections 0 (scrape_webpage_content W url).
Proof.
  intros st. rewrite scrape_webpage_content_run. unfold selections_within.
  cbn [snd record_call calls]. rewrite selection_calls_app. cbn. lia.
Qed.

Lemma adds_is_content_relevant (W : World) text p q :
  adds_selections 0 (is_content_relevant W text p q).
Proof.
  unfold is_content_relevant. change 0%nat with (0 + 0)%nat.
  apply adds_bind; [now apply adds_chat_other | intros; apply adds_ret].
Qed.

(** Every round of the loop may spend a full retry budget. *)
Lemma adds_try_results (W : World) rounds available p q :
  adds_selections (3 * rounds) (try_results W rounds available p q).
Proof.
  revert available. induction rounds as [|n IH]; intros available; cbn [try_results].
  - apply adds_ret.
  - destruct available as [|c rest].
    + apply adds_weaken with (a := 0%nat); [lia | apply adds_ret].
    + apply adds_weaken with (a := (3 + (0 + (0 + 3 * n)))%nat); [lia|].
      apply adds_bind; [apply adds_select_best|].
      intros best. destruct (take_result best (c :: rest)) as [[chosen remaining]|].
      * apply adds_bind; [apply adds_scrape|].
        intros [text|].
        -- apply adds_bind; [apply adds_is_content_relevant|].
           intros [|]; [|apply IH].
           apply adds_weaken with (a := 0%nat); [lia | apply adds_ret].
        -- apply adds_weaken with (a := (3 * n)%nat); [lia | apply IH].
      * apply adds_weaken with (a := 0%nat); [lia | apply adds_ret].
Qed.

Lemma adds_run_ai_search_pipeline (W : World) p :
  adds_selections 9 (run_ai_search_pipeline W p).
Proof.
  unfold run_ai_search_pipeline, generate_search_query.
  change 9%nat with ((0 + 0) + (0 + 9))%nat.
  apply adds_bind.
  - apply adds_bind; [now apply adds_chat_other|].
    intros [q|]; [destruct (truthy q)|]; apply adds_ret.
  - intros [q|]; [|apply adds_weaken with (a := 0%nat); [lia | apply adds_ret]].
    destruct (negb (truthy q)); [apply adds_weaken with (a := 0%nat); [lia | apply adds_ret]|].
    apply adds_bind.
    + apply adds_search.
    + intros [|c rest]; [apply adds_weaken with (a := 0%nat); [lia | apply adds_ret]|].
      eapply adds_weaken; [|apply adds_try_results].
      unfold SEARCH_RETRY_LIMIT. lia.
Qed.

(** C1, as the code has it: the retry budget belongs to one call of
    select_best_search_result_id.  One call sends at most 3 selection
    requests, the loop of run_ai_search_pipeline makes one such call in each
    of its at most 3 rounds, and a pipeline run sends at most 9. *)
Theorem selection_requests_per_run (W : World) :
  (forall search_results user_prompt_content generated_query st,
     (selection_calls
        (calls (snd (select_best_search_result_id W search_results user_prompt_content
                       generated_query st)))
      <= selection_calls (calls st) + 3)%nat) /\
  (forall rounds available user_prompt_content generated_query st,
     (selection_calls
        (calls (snd (try_results W rounds available user_prompt_content
                       generated_query st)))
      <= selection_calls (calls st) + 3 * rounds)%nat) /\
  (forall last_user_prompt_content st,
     (selection_calls (calls (snd (run_ai_search_pipeline W last_user_prompt_content st)))
      <= selection_calls (calls st) + 9)%nat).
Proof.
  split; [|split]; intros.
  - apply adds_select_best.
  - apply adds_try_results.
  - apply adds_run_ai_search_pipeline.
Qed.

(** C1 as the claim has it fails: with three results and a model that never
    answers with a number, one pipeline run sends nine selection requests. *)
Lemma nine_selection_requests :
  selection_calls
    (calls (snd (run_ai_search_pipeline stubborn_world (lit "news")
                   (initial_state stubborn_world)))) = 9%nat /\
  ~ (selection_calls
       (calls (snd (run_ai_search_pipeline stubborn_world (lit "news")
                      (initial_state stubborn_world)))) <= 3)%nat.
Proof.
  assert (H : selection_calls
                (calls (snd (run_ai_search_pipeline stubborn_world (lit "news")
                               (initial_state stubborn_world)))) = 9%nat)
    by (vm_compute; reflexivity).
  split; [exact H | rewrite H; lia].
Qed.

(** ** The order in which results are tried (lines 294-317) *)

Lemma helper_outcome_ok (answer : result str) (content : option str) :
  helper_outcome answer = Ok content -> content = content_of answer.
Proof.
  destruct answer as [reply|e]; cbn.
  - intros H. now injection H as <-.
  - destruct (is_Exception e); [|discriminate]. intros H. now injection H as <-.
Qed.

Lemma scrape_outcome_some (answer : Scraped) (text : str) :
  scrape_outcome answer = Ok (Some text) ->
  answer = Extracted (Some text) /\ text <> [].
Proof.
  destruct answer as [| [t|] |e]; cbn; try discriminate.
  - destruct (truthy t) eqn:Ht; [|discriminate]. intros H. injection H as <-.
    split; [reflexivity | intros ->; discriminate Ht].
  - destruct (is_Exception e); discriminate.
Qed.

Lemma is_content_relevant_run (W : World) (text p q : str) (st : State) :
  is_content_relevant W text p q st
  = (match helper_outcome (ollama_chat W (calls st) contains_data_msg
                             (relevance_user_data text p q)) with
     | Ok content => Ok (says_true content)
     | Raise e => Raise e
     end,
     record_call (CallChat contains_data_msg (relevance_user_data text p q)) st).
Proof.
  unfold is_content_relevant, bind. rewrite _call_ollama_chat_run.
  destruct (helper_outcome _); reflexivity.
Qed.

Lemma scraped_urls_record_scrape (url : str) (st : State) :
  scraped_urls (calls (record_call (CallScrape url) st)) = scraped_urls (calls st) ++ [url].
Proof. cbn [calls record_call]. now rewrite scraped_urls_app. Qed.

Lemma scraped_urls_record_chat p ud (st : State) :
  scraped_urls (calls (record_call (CallChat p ud) st)) = scraped_urls (calls st).
Proof. cbn [calls record_call]. rewrite scraped_urls_app. apply app_nil_r. Qed.

Lemma select_best_keeps_scraped_urls (W : World) search_results p q (st : State) :
  scraped_urls (calls (snd (select_best_search_result_id W search_results p q st)))
  = scraped_urls (calls st).
Proof.
  unfold select_best_search_result_id. destruct search_results as [|c rest]; [reflexivity|].
  match goal with
  | |- context [select_attempts W ?n ?l ?ud st] =>
      pose proof (select_attempts_outcome W n l ud st) as H;
      destruct (select_attempts W n l ud st) as [r st']
  end.
  exact (proj1 (proj2 (proj2 H))).
Qed.

Lemma judged_run (W : World) (first : Candidate) (p q : str) (st1 : State) :
  let '(r, st3) := judged W first p q st1 in
  scraped_urls (calls st3) = scraped_urls (calls st1) ++ [link first] /\
  match r with
  | Ok (Some text) => relevant_content W first text p q
  | Ok None => no_relevant_content W first p q
  | Raise e => is_Exception e = false
  end.
Proof.
  unfold judged, bind. rewrite scrape_webpage_content_run.
  pose proof (scraped_urls_record_scrape (link first) st1) as Hst2.
  set (st2 := record_call (CallScrape (link first)) st1) in *.
  destruct (scrape_outcome (trafilatura W (calls st1) (link first)))
    as [[text|]|e] eqn:Hpage.
  - rewrite is_content_relevant_run.
    destruct (helper_outcome (ollama_chat W (calls st2) contains_data_msg
                                (relevance_user_data text p q)))
      as [content|e] eqn:Hrel.
    + apply helper_outcome_ok in Hrel. subst content. unfold ret.
      rewrite scraped_urls_record_chat.
      destruct (says_true _) eqn:Hyes; (split; [exact Hst2|]).
      * apply scrape_outcome_some in Hpage. destruct Hpage as [Hpage Htext].
        exists (calls st1), (calls st2). repeat split; assumption.
      * exists (calls st1). right. exists text, (calls st2). split; assumption.
    + rewrite scraped_urls_record_chat. split; [exact Hst2|].
      now apply helper_outcome_raise in Hrel.
  - unfold ret. split; [exact Hst2|]. exists (calls st1). now left.
  - split; [exact Hst2|].
    destruct (trafilatura W (calls st1) (link first)) as [| [t|] |e']; cbn in Hpage;
      try discriminate.
    destruct (is_Exception e') eqn:He; [discriminate|]. now injection Hpage as <-.
Qed.







(** ** The final answer (lines 338-374) *)

Lemma print_tokens_run (tokens : list str) (st : State) :
  print_tokens tokens st
  = (Ok tt, {| conversation_history := conversation_history st;
               stdout := stdout st ++ tokens; calls := calls st |}).
Proof.
  revert st. induction tokens as [|t ts IH]; intros st.
  - cbn. rewrite app_nil_r. now destruct st.
  - cbn [print_tokens]. unfold bind, print. rewrite IH. cbn. now rewrite <- app_assoc.
Qed.

(** C9: when the streaming call fails, the conversation is what it was when
    stream_and_record_assistant_response was entered; when the failure is an
    Exception the function returns and the last thing printed is the error
    message, and an interrupt goes through to the caller. *)
Theorem stream_failure_keeps_history (W : World) (st : State) (e : exn) :
  conversation_history st <> [] ->
  stream_failure (ollama_stream W (calls st) (conversation_history st)) = Some e ->
  let '(r, st') := stream_and_record_assistant_response W st in
  conversation_history st' = conversation_history st /\
  (is_Exception e = true ->
   r = Ok tt /\
   exists shown, stdout st' = stdout st ++ shown ++ [streaming_error_message ++ [newline]]) /\
  (is_Exception e = false -> r = Raise e).
Proof.
  intros Hne Hfail. unfold stream_and_record_assistant_response, bind at 1, get_history.
  destruct (conversation_history st) as [|t h] eqn:Hh; [now elim Hne|].
  unfold try_except, bind at 1, call.
  destruct (ollama_stream W (calls st) (t :: h)) as [e'|tokens [e'|]];
    cbn in Hfail; try discriminate; injection Hfail as ->.
  - unfold raise. cbv beta iota.
    destruct (is_Exception e) eqn:He; unfold println, print;
      cbn [fst snd conversation_history stdout record_call calls];
      (split; [exact Hh|]); (split; intros Hx; try discriminate Hx); try reflexivity.
    split; [reflexivity|]. exists []. reflexivity.
  - unfold bind, println, print. rewrite print_tokens_run. unfold raise. cbv beta iota.
    destruct (is_Exception e) eqn:He;
      cbn [fst snd conversation_history stdout record_call calls];
      (split; [exact Hh|]); (split; intros Hx; try discriminate Hx); try reflexivity.
    split; [reflexivity|].
    exists ((([newline] ++ lit "ASSISTANT:") ++ [newline]) :: tokens).
    rewrite <- !app_assoc. reflexivity.
Qed.

(** C9 on a history of two turns and an answer that breaks off after one
    token. *)
Lemma stream_failure_keeps_history_witness :
  let st := {| conversation_history := [asistant_msg stubborn_world;
                                        {| role := user; content := lit "hello" |}];
               stdout := []; calls := [] |} in
  let '(r, st') := stream_and_record_assistant_response stubborn_world st in
  conversation_history st' = conversation_history st /\
  (is_Exception ConnectionError = true ->
   r = Ok tt /\
   exists shown, stdout st' = stdout st ++ shown ++ [streaming_error_message ++ [newline]]) /\
  (is_Exception ConnectionError = false -> r = Raise ConnectionError).
Proof.
  apply (@stream_failure_keeps_history stubborn_world
           {| conversation_history := [asistant_msg stubborn_world;
                                       {| role := user; content := lit "hello" |}];
              stdout := []; calls := [] |} ConnectionError).
  - discriminate.
  - reflexivity.
Defined.

(** Whatever the streaming call does, the conversation is left alone or
    gets one assistant turn at its end. *)
Lemma stream_and_record_history (W : World) (st : State) :
  let '(r, st') := stream_and_record_assistant_response W st in
  conversation_history st' = conversation_history st \/
  (exists answer,
     conversation_history st'
     = conversation_history st ++ [{| role := assistant; content := answer |}]).
Proof.
  unfold stream_and_record_assistant_response, bind at 1, get_history.
  destruct (conversation_history st) as [|t h] eqn:Hh; [now left|].
  unfold try_except, bind at 1, call.
  destruct (ollama_stream W (calls st) (t :: h)) as [e'|tokens [e'|]].
  - unfold raise. cbv beta iota. destruct (is_Exception e'); now left.
  - unfold bind, println, print. rewrite print_tokens_run. unfold raise. cbv beta iota.
    destruct (is_Exception e'); now left.
  - unfold bind, println, print, append_turn, bind, get_history, set_history, ret.
    rewrite print_tokens_run. cbv beta iota.
    cbn [fst snd conversation_history stdout record_call calls].
    right. exists (List.concat tokens). now rewrite Hh.
Qed.

(** ** Parsing the result page (lines 143-170) *)

(** No block after the fifth is looked at. *)
Lemma parse_results_length (i : Z) (divs : list ResultDiv) :
  (0 <= i)%Z ->
  (Z.of_nat (List.length (parse_results i divs)) <= Z.max 0 (DUCKDUCKGO_MAX_RESULTS - i))%Z.
Proof.
  unfold DUCKDUCKGO_MAX_RESULTS. revert i.
  induction divs as [|d rest IH]; intros i Hi; cbn [parse_results].
  - cbn. lia.
  - unfold DUCKDUCKGO_MAX_RESULTS. destruct (i >=? 5)%Z eqn:E; [cbn; lia|].
    rewrite Z.geb_leb in E. apply Z.leb_gt in E.
    specialize (IH (i + 1)%Z ltac:(lia)).
    destruct (title_tag d) as [a|]; [|lia].
    destruct (href a) as [l|]; [|lia].
    destruct (truthy l); [|lia].
    cbn [List.length]. lia.
Qed.

(** The ordinal of a result is the index of its block among all blocks of
    the page, the dropped ones included. *)
Lemma parse_results_ids (i : Z) (divs : list ResultDiv) (c : Candidate) :
  In c (parse_results i divs) ->
  exists k d a,
    id c = (i + Z.of_nat k)%Z /\ nth_error divs k = Some d /\
    title_tag d = Some a /\ href a = Some (link c) /\ link c <> [].
Proof.
  revert i. induction divs as [|d rest IH]; intros i Hin; cbn [parse_results] in Hin.
  - destruct Hin.
  - destruct (i >=? DUCKDUCKGO_MAX_RESULTS)%Z; [destruct Hin|].
    assert (Hlater : In c (parse_results (i + 1) rest) ->
              exists k d0 a, id c = (i + Z.of_nat k)%Z /\ nth_error (d :: rest) k = Some d0 /\
                             title_tag d0 = Some a /\ href a = Some (link c) /\ link c <> []).
    { intros H. destruct (IH _ H) as [k [d0 [a [Hid Hrest]]]].
      exists (S k), d0, a. split; [lia | exact Hrest]. }
    destruct (title_tag d) as [a|] eqn:Ha; [|now apply Hlater].
    destruct (href a) as [l|] eqn:Hl; [|now apply Hlater].
    destruct (truthy l) eqn:Ht; [|now apply Hlater].
    destruct Hin as [<- | Hin]; [|now apply Hlater].
    exists 0%nat, d, a. cbn [id link nth_error]. repeat split; try assumption; [lia|].
    intros ->. discriminate Ht.
Qed.

(** C3 at a page whose first block has no title anchor: the only result
    returned carries the ordinal 1, not 0. *)
Lemma first_ordinal_is_not_zero :
  exists c,
    fst (perform_duckduckgo_search gapped_world (lit "news") (initial_state gapped_world))
    = Ok [c] /\ id c = 1%Z /\ link c = lit "https://example.org/b".
Proof. eexists. repeat split. Qed.

(** ** Turns of the conversation (lines 396-435) *)

Lemma append_turn_run (t : Turn) (st : State) :
  append_turn t st
  = (Ok tt, {| conversation_history := conversation_history st ++ [t];
               stdout := stdout st; calls := calls st |}).
Proof. reflexivity. Qed.

(** C2 fails on the code: after two lines typed into main, the conversation
    has two user turns in a row.  The search decision of line 400 is given
    the typed string instead of the conversation and raises a TypeError, the
    handler of line 441 leaves the turn of line 396 in place, and the next
    line is appended after it. *)
Lemma two_user_turns_in_a_row :
  conversation_history
    (snd (main stubborn_world [Line (lit "hi"); Line (lit "yo")]
            (initial_state stubborn_world)))
  = [asistant_msg stubborn_world;
     {| role := user; content := lit "hi" |};
     {| role := user; content := lit "yo" |}] /\
  no_adjacent_users
    (conversation_history
       (snd (main stubborn_world [Line (lit "hi"); Line (lit "yo")]
               (initial_state stubborn_world)))) = false.
Proof. split; vm_compute; reflexivity. Qed.

(** ** The search decision as main calls it (lines 82-91, 396-400, 441-443) *)

Lemma should_search_web_str (W : World) (s : str) (st : State) :
  s <> [] -> should_search_web W (AsStr s) st = (Raise TypeError, st).
Proof. destruct s; [intros H; now elim H | reflexivity]. Qed.

(** The [try] block on a line that is neither a command nor blank. *)
Lemma loop_body_processed (W : World) (typed : str) (st : State) :
  PyStr.eqb (lower typed) (lit "quit") || PyStr.eqb (lower typed) (lit "exit") = false ->
  strip typed <> [] ->
  loop_body W (Line typed) st
  = (Raise TypeError,
     {| conversation_history := conversation_history st ++ [{| role := user; content := typed |}];
        stdout := stdout st ++ [lit "USER: " ++ [newline]];
        calls := calls st |}).
Proof.
  intros Hcommand Hblank. unfold loop_body, bind at 1, input, bind at 1, print, ret.
  cbv beta iota. rewrite Hcommand.
  destruct (strip typed) as [|c l] eqn:Hstrip; [now elim Hblank|].
  cbn [truthy negb]. unfold bind at 1. rewrite append_turn_run.
  unfold bind at 1. rewrite should_search_web_str; [reflexivity|].
  intros ->. discriminate Hstrip.
Qed.

Lemma main_iteration_calls (W : World) (k : Keyboard) (st : State) :
  calls (snd (main_iteration W k st)) = calls st.
Proof.
  unfold main_iteration, try_except. destruct k as [typed|e].
  - destruct (PyStr.eqb (lower typed) (lit "quit") || PyStr.eqb (lower typed) (lit "exit"))
      eqn:Hcommand.
    + unfold loop_body, bind at 1, input, bind at 1, print, ret. cbv beta iota.
      rewrite Hcommand. reflexivity.
    + destruct (strip typed) as [|c l] eqn:Hstrip.
      * unfold loop_body, bind at 1, input, bind at 1, print, ret. cbv beta iota.
        rewrite Hcommand, Hstrip. reflexivity.
      * rewrite loop_body_processed; [reflexivity | exact Hcommand |].
        rewrite Hstrip. discriminate.
  - unfold loop_body, bind at 1, input, bind at 1, print, raise. cbv beta iota.
    destruct e; reflexivity.
Qed.

Lemma main_calls (W : World) (keyboard : list Keyboard) (st : State) :
  calls (snd (main W keyboard st)) = calls st.
Proof.
  revert st. induction keyboard as [|k later IH]; intros st; [reflexivity|].
  cbn [main]. unfold bind.
  pose proof (main_iteration_calls W k st) as Hk.
  destruct (main_iteration W k st) as [[[|]|e] st1]; cbn [snd] in *.
  - now rewrite IH.
  - exact Hk.
  - exact Hk.
Qed.

(** C10, as the code has it: should_search_web raises a TypeError on every
    non-empty string; an iteration of main whose line is neither quit nor
    exit (in any case) nor blank appends the user turn, reaches that error
    and ends in the generic handler, which prints the critical-error line;
    and whatever is typed, main never sends a request, so the search
    decision never succeeds from main. *)
Theorem search_decision_fails_in_main (W : World) (typed : str) (st : State) :
  (typed <> [] -> should_search_web W (AsStr typed) st = (Raise TypeError, st)) /\
  (PyStr.eqb (lower typed) (lit "quit") || PyStr.eqb (lower typed) (lit "exit") = false ->
   strip typed <> [] ->
   main_iteration W (Line typed) st
   = (Ok Continue,
      {| conversation_history :=
           conversation_history st ++ [{| role := user; content := typed |}];
         stdout := stdout st ++ [lit "USER: " ++ [newline];
                                 critical_error_message ++ [newline]];
         calls := calls st |})) /\
  (forall keyboard, calls (snd (main W keyboard st)) = calls st).
Proof.
  split; [apply should_search_web_str|]. split; [|intros; apply main_calls].
  intros Hcommand Hblank. unfold main_iteration, try_except.
  rewrite loop_body_processed by assumption.
  unfold bind, println, print, ret. cbv beta iota.
  cbn [conversation_history stdout calls]. now rewrite <- app_assoc.
Qed.

(** C10 on the line "hi". *)
Lemma search_decision_fails_in_main_witness :
  should_search_web stubborn_world (AsStr (lit "hi")) (initial_state stubborn_world)
  = (Raise TypeError, initial_state stubborn_world) /\
  main_iteration stubborn_world (Line (lit "hi")) (initial_state stubborn_world)
  = (Ok Continue,
     {| conversation_history :=
          [asistant_msg stubborn_world; {| role := user; content := lit "hi" |}];
        stdout := [lit "USER: " ++ [newline]; critical_error_message ++ [newline]];
        calls := [] |}).
Proof.
  destruct (search_decision_fails_in_main stubborn_world (lit "hi")
              (initial_state stubborn_world)) as [Hraise [Hiteration _]].
  split.
  - apply Hraise. discriminate.
  - apply Hiteration; [reflexivity | discriminate].
Defined.

(** C10 as the claim has it fails: a line of one space is not empty, and the
    iteration neither calls should_search_web nor ends in the generic
    handler; the same holds for the line "quit". *)
Lemma blank_line_skips_the_decision :
  lit " " <> [] /\
  main_iteration stubborn_world (Line (lit " ")) (initial_state stubborn_world)
  = (Ok Continue,
     {| conversation_history := [asistant_msg stubborn_world];
        stdout := [lit "USER: " ++ [newline]];
        calls := [] |}) /\
  ~ In (critical_error_message ++ [newline])
       (stdout (snd (main_iteration stubborn_world (Line (lit " "))
                       (initial_state stubborn_world)))) /\
  main_iteration stubborn_world (Line (lit "quit")) (initial_state stubborn_world)
  = (Ok Break,
     {| conversation_history := [asistant_msg stubborn_world];
        stdout := [lit "USER: " ++ [newline]];
        calls := [] |}).
Proof.
  split; [discriminate|]. split; [reflexivity|]. split; [|reflexivity].
  intros [H | []]. vm_compute in H. discriminate H.
Qed.

(** * Further properties of search_agent.py *)

(** ** Prefixes and substrings *)

Lemma startswith_prefix (p r : str) : startswith (p ++ r) p = true.
Proof.
  induction p as [|a p IH]; [reflexivity|]. cbn. now rewrite Ascii.eqb_refl, IH.
Qed.

Lemma startswith_inv (p s : str) : startswith s p = true -> exists r, s = p ++ r.
Proof.
  revert s. induction p as [|a p IH]; intros s H; [now exists s|].
  destruct s as [|b s]; [discriminate H|]. cbn in H.
  apply andb_true_iff in H. destruct H as [Hab Hrest].
  apply Ascii.eqb_eq in Hab. subst b.
  destruct (IH s Hrest) as [r ->]. now exists r.
Qed.

Lemma endswith_inv (c : ascii) (s : str) : endswith s [c] = true -> exists r, s = r ++ [c].
Proof.
  unfold endswith. intros H. apply startswith_inv in H. destruct H as [r Hr].
  exists (rev r). rewrite <- (rev_involutive s), Hr. cbn [rev app]. reflexivity.
Qed.

Lemma contains_unfold (sub s : str) :
  contains sub s
  = startswith s sub || match s with [] => false | _ :: r => contains sub r end.
Proof. destruct s; reflexivity. Qed.

Lemma contains_infix (sub a b : str) : contains sub (a ++ sub ++ b) = true.
Proof.
  induction a as [|x a IH].
  - rewrite contains_unfold. cbn [app]. now rewrite startswith_prefix.
  - rewrite contains_unfold. cbn [app]. rewrite IH. apply orb_true_r.
Qed.

Lemma contains_inv (sub s : str) :
  contains sub s = true -> exists a b, s = a ++ sub ++ b.
Proof.
  induction s as [|x s IH]; rewrite contains_unfold; intros H.
  - rewrite orb_false_r in H. apply startswith_inv in H. destruct H as [r Hr].
    exists [], r. exact Hr.
  - apply orb_true_iff in H. destruct H as [H | H].
    + apply startswith_inv in H. destruct H as [r Hr]. exists [], r. exact Hr.
    + destruct (IH H) as [a [b ->]]. exists (x :: a), b. reflexivity.
Qed.

(** The rule of lines 95 and 259: the reply counts as a yes exactly when it
    has the letters t, r, u, e in a row, in any case. *)
Lemma says_true_iff (reply : option str) :
  says_true reply = true <->
  exists a t b, reply = Some (a ++ t ++ b) /\ lower t = lit "true".
Proof.
  unfold says_true. split.
  - destruct reply as [c|]; [|discriminate]. intros H.
    apply andb_true_iff in H. destruct H as [_ H].
    apply contains_inv in H. destruct H as [a' [b' H]]. unfold lower in H.
    apply map_eq_app in H. destruct H as [a [tb [-> [_ H]]]].
    apply map_eq_app in H. destruct H as [t [b [-> [Ht _]]]].
    now exists a, t, b.
  - intros [a [t [b [-> Ht]]]]. apply andb_true_iff. split.
    + destruct a; [|reflexivity]. destruct t; [discriminate Ht | reflexivity].
    + unfold lower in *. rewrite !map_app, Ht. apply contains_infix.
Qed.

(** ** The two yes/no questions (lines 82-99 and 244-263) *)

(** X1: on a history that ends with a user turn, should_search_web sends
    one decision request carrying that turn.  When the model replies, the
    answer is True exactly when the reply contains "true" in any letter
    case; an Exception raised by the request is absorbed and the answer is
    falsy; an exception that is not an Exception, such as a
    KeyboardInterrupt, leaves the function. *)
Theorem should_search_web_decides (W : World) (h : list Turn) (last : Turn) (st : State) :
  role last = user ->
  exists outcome,
    should_search_web W (AsTurns (h ++ [last])) st
    = (outcome, record_call (CallDecide search_or_not_msg last) st) /\
    match ollama_decide W (calls st) search_or_not_msg last with
    | Ok reply =>
        outcome = Ok (says_true (Some reply)) /\
        (says_true (Some reply) = true <->
         exists a t b, reply = a ++ t ++ b /\ lower t = lit "true")
    | Raise e => outcome = if is_Exception e then Ok false else Raise e
    end.
Proof.
  intros Hrole. unfold should_search_web. rewrite pop_last_app, Hrole. cbn [Role_eqb negb].
  unfold bind. rewrite _call_ollama_decide_run.
  destruct (ollama_decide W (calls st) search_or_not_msg last) as [reply|e]; cbn [helper_outcome].
  - eexists. split; [reflexivity|]. split; [reflexivity|].
    rewrite says_true_iff. split.
    + intros [a [t [b [H Ht]]]]. injection H as ->. now exists a, t, b.
    + intros [a [t [b [-> Ht]]]]. now exists a, t, b.
  - destruct (is_Exception e); eexists; (split; reflexivity).
Qed.

Lemma should_search_web_decides_witness :
  exists outcome,
    should_search_web helpful_world
      (AsTurns ([asistant_msg helpful_world] ++ [user_turn (lit "weather?")]))
      (initial_state helpful_world)
    = (outcome,
       record_call (CallDecide search_or_not_msg (user_turn (lit "weather?")))
         (initial_state helpful_world)) /\
    outcome = Ok true.
Proof.
  destruct (@should_search_web_decides helpful_world [asistant_msg helpful_world]
              (user_turn (lit "weather?")) (initial_state helpful_world) eq_refl)
    as [outcome [Hrun Hrule]].
  exists outcome. split; [exact Hrun|]. cbn in Hrule. exact (proj1 Hrule).
Defined.

(** X2: is_content_relevant sends one relevance request.  When the model
    replies, the answer is True exactly when the reply contains "true" in
    any letter case, so that "untrue" or "not true" count as relevant; an
    Exception raised by the request is absorbed and the answer is falsy; an
    exception that is not an Exception leaves the function. *)
Theorem is_content_relevant_rule (W : World) (text p q : str) (st : State) :
  exists outcome,
    is_content_relevant W text p q st
    = (outcome, record_call (CallChat contains_data_msg (relevance_user_data text p q)) st) /\
    match ollama_chat W (calls st) contains_data_msg (relevance_user_data text p q) with
    | Ok reply =>
        outcome = Ok (says_true (Some reply)) /\
        (says_true (Some reply) = true <->
         exists a t b, reply = a ++ t ++ b /\ lower t = lit "true")
    | Raise e => outcome = if is_Exception e then Ok false else Raise e
    end.
Proof.
  rewrite is_content_relevant_run.
  destruct (ollama_chat W (calls st) contains_data_msg (relevance_user_data text p q))
    as [reply|e]; cbn [helper_outcome].
  - eexists. split; [reflexivity|]. split; [reflexivity|].
    rewrite says_true_iff. split.
    + intros [a [t [b [H Ht]]]]. injection H as ->. now exists a, t, b.
    + intros [a [t [b [-> Ht]]]]. now exists a, t, b.
  - destruct (is_Exception e); eexists; (split; reflexivity).
Qed.

Lemma is_content_relevant_rule_witness :
  exists outcome,
    fst (is_content_relevant
           (constant_world (Some (lit "That is UNTRUE.")) None FetchFailed
              (StreamRefused ConnectionError))
           (lit "page") (lit "p") (lit "q") (initial_state stubborn_world))
    = outcome /\ outcome = Ok true.
Proof.
  destruct (is_content_relevant_rule
              (constant_world (Some (lit "That is UNTRUE.")) None FetchFailed
                 (StreamRefused ConnectionError))
              (lit "page") (lit "p") (lit "q") (initial_state stubborn_world))
    as [outcome [Hrun Hrule]].
  exists outcome. split; [now rewrite Hrun|]. cbn in Hrule. exact (proj1 Hrule).
Defined.

(** ** What quote stripping can remove (lines 111-117) *)

Lemma unquote_shape (c : ascii) (q : str) :
  unquote c q = q \/ (q = [c] /\ unquote c q = []) \/
  exists m, q = c :: m ++ [c] /\ unquote c q = m.
Proof.
  unfold unquote.
  destruct (startswith q [c]) eqn:Hs; [|now left].
  destruct (endswith q [c]) eqn:He; [|now left]. cbn [andb].
  apply startswith_inv in Hs. destruct Hs as [r ->]. cbn [app] in *.
  apply endswith_inv in He. destruct He as [r' He].
  destruct r' as [|x r']; cbn [app] in He.
  - injection He as ->. right. left. split; reflexivity.
  - injection He as <- ->. right. right. exists r'. split; [reflexivity|].
    apply slice_between.
Qed.

Lemma strip_quotes_shape (q : str) :
  exists front back,
    q = front ++ strip_quotes q ++ back /\
    forallb is_quote (front ++ back) = true /\
    (List.length front <= 2)%nat /\ (List.length back <= 2)%nat.
Proof.
  unfold strip_quotes.
  destruct (unquote_shape dquote q) as [Hd | [[Hq Hd] | [m [Hq Hd]]]]; rewrite Hd.
  - destruct (unquote_shape squote q) as [Hs | [[Hq Hs] | [m [Hq Hs]]]]; rewrite Hs.
    + exists [], []. rewrite app_nil_r. repeat split; cbn; lia.
    + exists [squote], []. rewrite Hq. repeat split; cbn; lia.
    + exists [squote], [squote]. rewrite Hq at 1. repeat split; cbn; lia.
  - exists [dquote], []. rewrite Hq. repeat split; cbn; lia.
  - destruct (unquote_shape squote m) as [Hs | [[Hm Hs] | [m' [Hm Hs]]]]; rewrite Hs.
    + exists [dquote], [dquote]. rewrite Hq at 1. repeat split; cbn; lia.
    + exists [dquote; squote], [dquote]. rewrite Hq, Hm. repeat split; cbn; lia.
    + exists [dquote; squote], [squote; dquote]. rewrite Hq at 1. rewrite Hm at 1.
      cbn [app]. rewrite <- app_assoc. repeat split; cbn; lia.
Qed.

(** X3: whatever the model replied, the query returned by
    generate_search_query is the reply with at most two characters taken
    from its front and at most two from its end, all of them quote
    characters; nothing inside the reply is changed. *)
Theorem generate_search_query_takes_quotes_only (W : World) (prompt q : str) (st : State) :
  ollama_chat W (calls st) query_msg (user_data_for_llm prompt) = Ok q ->
  exists query front back,
    fst (generate_search_query W prompt st) = Ok (Some query) /\
    q = front ++ query ++ back /\
    forallb is_quote (front ++ back) = true /\
    (List.length front <= 2)%nat /\ (List.length back <= 2)%nat.
Proof.
  intros Hq. destruct (strip_quotes_shape q) as [front [back H]].
  exists (strip_quotes q), front, back.
  split; [now apply generate_search_query_result | exact H].
Qed.

Lemma generate_search_query_takes_quotes_only_witness :
  exists query front back,
    fst (generate_search_query helpful_world (lit "weather?") (initial_state helpful_world))
    = Ok (Some query) /\
    lit "weather in Paris" = front ++ query ++ back /\
    forallb is_quote (front ++ back) = true /\
    (List.length front <= 2)%nat /\ (List.length back <= 2)%nat.
Proof.
  apply (@generate_search_query_takes_quotes_only helpful_world (lit "weather?")
           (lit "weather in Paris") (initial_state helpful_world)).
  reflexivity.
Defined.

(** ** The list of search results (lines 127-170) *)

Lemma parse_results_member (i : Z) (divs : list ResultDiv) (c : Candidate) :
  (0 <= i)%Z -> In c (parse_results i divs) ->
  exists k d a,
    id c = (i + Z.of_nat k)%Z /\ (id c < DUCKDUCKGO_MAX_RESULTS)%Z /\
    nth_error divs k = Some d /\ title_tag d = Some a /\
    href a = Some (link c) /\ link c <> [] /\
    title c = strip (anchor_text a) /\
    snippet c = match snippet_tag d with
                | Some s => strip s
                | None => lit "No description available."
                end.
Proof.
  revert i. induction divs as [|d rest IH]; intros i Hi Hin; cbn [parse_results] in Hin.
  - destruct Hin.
  - destruct (i >=? DUCKDUCKGO_MAX_RESULTS)%Z eqn:Hcap; [destruct Hin|].
    rewrite Z.geb_leb in Hcap. apply Z.leb_gt in Hcap.
    assert (Hlater : In c (parse_results (i + 1) rest) ->
              exists k d0 a,
                id c = (i + Z.of_nat k)%Z /\ (id c < DUCKDUCKGO_MAX_RESULTS)%Z /\
                nth_error (d :: rest) k = Some d0 /\ title_tag d0 = Some a /\
                href a = Some (link c) /\ link c <> [] /\
                title c = strip (anchor_text a) /\
                snippet c = match snippet_tag d0 with
                            | Some s => strip s
                            | None => lit "No description available."
                            end).
    { intros H. destruct (IH (i + 1)%Z ltac:(lia) H) as [k [d0 [a [Hid Hrest]]]].
      exists (S k), d0, a. split; [lia | exact Hrest]. }
    destruct (title_tag d) as [a|] eqn:Ha; [|now apply Hlater].
    destruct (href a) as [l|] eqn:Hl; [|now apply Hlater].
    destruct (truthy l) eqn:Ht; [|now apply Hlater].
    destruct Hin as [<- | Hin]; [|now apply Hlater].
    exists 0%nat, d, a. cbn [id link title snippet nth_error].
    repeat split; try assumption; try lia.
    intros ->. discriminate Ht.
Qed.

Lemma parse_results_shorter (i : Z) (divs : list ResultDiv) :
  (List.length (parse_results i divs) <= List.length divs)%nat.
Proof.
  revert i. induction divs as [|d rest IH]; intros i; cbn [parse_results]; [cbn; lia|].
  cbn [List.length].
  destruct (i >=? DUCKDUCKGO_MAX_RESULTS)%Z; [cbn [List.length]; lia|].
  specialize (IH (i + 1)%Z).
  destruct (title_tag d) as [a|]; [|lia].
  destruct (href a) as [l|]; [|lia].
  destruct (truthy l); [cbn [List.length]|]; lia.
Qed.

(** X4: perform_duckduckgo_search makes one search request.  When the page
    comes back and is parsed, at most 5 results are returned whatever the
    page holds, and no more than it has blocks; when the request raises a
    RequestException the empty list is returned; any other exception of the
    request, and any exception of the parse, leaves the function. *)
Theorem perform_duckduckgo_search_bounded (W : World) (query : str) (st : State) :
  exists outcome,
    perform_duckduckgo_search W query st = (outcome, record_call (CallSearch query) st) /\
    match duckduckgo W (calls st) query with
    | Page divs =>
        exists results,
          outcome = Ok results /\ (List.length results <= 5)%nat /\
          (List.length results <= List.length divs)%nat
    | RequestRaises e => outcome = if is_RequestException e then Ok [] else Raise e
    | ParseRaises e => outcome = Raise e
    end.
Proof.
  rewrite perform_duckduckgo_search_run. eexists. split; [reflexivity|].
  destruct (duckduckgo W (calls st) query) as [e|e|divs]; cbn [search_outcome].
  - reflexivity.
  - reflexivity.
  - exists (parse_results 0 divs). split; [reflexivity|]. split.
    + pose proof (@parse_results_length 0 divs ltac:(lia)) as H.
      unfold DUCKDUCKGO_MAX_RESULTS in H. lia.
    + apply parse_results_shorter.
Qed.

Lemma perform_duckduckgo_search_bounded_witness :
  exists outcome,
    perform_duckduckgo_search (constant_world None None FetchFailed (StreamRefused ConnectionError))
      (lit "news") (initial_state stubborn_world)
    = (outcome, record_call (CallSearch (lit "news")) (initial_state stubborn_world)) /\
    outcome = Ok [].
Proof.
  destruct (perform_duckduckgo_search_bounded
              (constant_world None None FetchFailed (StreamRefused ConnectionError))
              (lit "news") (initial_state stubborn_world)) as [outcome [Hrun Hfail]].
  exists outcome. split; [exact Hrun | exact Hfail].
Defined.

(** X5: every result returned for a page comes from one of its first five
    blocks, the one whose index is the result's id: that block has a title
    anchor whose href is the result's link, the link is not empty, the title
    is the anchor text without surrounding white space, and the snippet is
    the stripped snippet text or "No description available." when the block
    has none. *)
Theorem perform_duckduckgo_search_sound (W : World) (query : str) (st : State)
    (divs : list ResultDiv) (results : list Candidate) (c : Candidate) :
  duckduckgo W (calls st) query = Page divs ->
  fst (perform_duckduckgo_search W query st) = Ok results ->
  In c results ->
  (0 <= id c < 5)%Z /\
  exists d a,
    nth_error divs (Z.to_nat (id c)) = Some d /\ title_tag d = Some a /\
    href a = Some (link c) /\ link c <> [] /\
    title c = strip (anchor_text a) /\
    snippet c = match snippet_tag d with
                | Some s => strip s
                | None => lit "No description available."
                end.
Proof.
  intros Hpage Hrun Hin. rewrite perform_duckduckgo_search_run, Hpage in Hrun.
  cbn [fst search_outcome] in Hrun. injection Hrun as <-.
  destruct (@parse_results_member 0 divs c ltac:(lia) Hin)
    as [k [d [a [Hid [Hcap [Hnth Hrest]]]]]].
  unfold DUCKDUCKGO_MAX_RESULTS in Hcap. split; [lia|].
  exists d, a. split; [|exact Hrest].
  replace (Z.to_nat (id c)) with k by lia. exact Hnth.
Qed.

Lemma perform_duckduckgo_search_sound_witness :
  let c := {| id := 1; title := lit "b"; link := lit "https://example.org/b";
              snippet := lit "No description available." |} in
  (0 <= id c < 5)%Z /\
  exists d a,
    nth_error [bare_div; full_div "b"] (Z.to_nat (id c)) = Some d /\ title_tag d = Some a /\
    href a = Some (link c) /\ link c <> [] /\
    title c = strip (anchor_text a) /\
    snippet c = match snippet_tag d with
                | Some s => strip s
                | None => lit "No description available."
                end.
Proof.
  apply (@perform_duckduckgo_search_sound gapped_world (lit "news")
           (initial_state gapped_world) [bare_div; full_div "b"]
           [{| id := 1; title := lit "b"; link := lit "https://example.org/b";
               snippet := lit "No description available." |}]).
  - reflexivity.
  - reflexivity.
  - left. reflexivity.
Defined.

Lemma parse_results_sorted (i : Z) (divs : list ResultDiv) :
  Forall (fun c => (i <= id c)%Z) (parse_results i divs) /\
  StronglySorted (fun a b => (id a < id b)%Z) (parse_results i divs).
Proof.
  revert i. induction divs as [|d rest IH]; intros i; cbn [parse_results].
  - split; constructor.
  - destruct (i >=? DUCKDUCKGO_MAX_RESULTS)%Z; [split; constructor|].
    destruct (IH (i + 1)%Z) as [Hlow Hsorted].
    assert (Hlater : Forall (fun c => (i <= id c)%Z) (parse_results (i + 1) rest) /\
                     StronglySorted (fun a b => (id a < id b)%Z) (parse_results (i + 1) rest)).
    { split; [|exact Hsorted]. eapply Forall_impl; [|exact Hlow]. cbn. intros; lia. }
    destruct (title_tag d) as [a|]; [|exact Hlater].
    destruct (href a) as [l|]; [|exact Hlater].
    destruct (truthy l); [|exact Hlater].
    split.
    + constructor; [cbn; lia | exact (proj1 Hlater)].
    + constructor; [exact Hsorted|].
      eapply Forall_impl; [|exact Hlow]. cbn. intros; lia.
Qed.

(** X6: the results come in the order of the page: their ids increase
    strictly along the returned list, so no two results share an id.  A
    list is returned unless the request raises something that is not a
    RequestException or the parse raises. *)
Theorem perform_duckduckgo_search_ordered (W : World) (query : str) (st : State) :
  (exists results,
     fst (perform_duckduckgo_search W query st) = Ok results /\
     StronglySorted (fun a b => (id a < id b)%Z) results) \/
  (exists e,
     fst (perform_duckduckgo_search W query st) = Raise e /\
     ((duckduckgo W (calls st) query = RequestRaises e /\ is_RequestException e = false) \/
      duckduckgo W (calls st) query = ParseRaises e)).
Proof.
  rewrite perform_duckduckgo_search_run. cbn [fst].
  destruct (duckduckgo W (calls st) query) as [e|e|divs]; cbn [search_outcome].
  - destruct (is_RequestException e) eqn:He.
    + left. exists []. split; [reflexivity | constructor].
    + right. exists e. split; [reflexivity|]. left. now split.
  - right. exists e. split; [reflexivity|]. now right.
  - left. exists (parse_results 0 divs). split; [reflexivity | apply parse_results_sorted].
Qed.

Lemma parse_results_first_blocks (i : Z) (divs : list ResultDiv) :
  (0 <= i)%Z ->
  parse_results i divs
  = parse_results i (firstn (Z.to_nat (DUCKDUCKGO_MAX_RESULTS - i)) divs).
Proof.
  revert i. induction divs as [|d rest IH]; intros i Hi.
  - now rewrite firstn_nil.
  - cbn [parse_results]. destruct (i >=? DUCKDUCKGO_MAX_RESULTS)%Z eqn:Hcap.
    + rewrite Z.geb_leb in Hcap. apply Z.leb_le in Hcap.
      replace (Z.to_nat (DUCKDUCKGO_MAX_RESULTS - i)) with 0%nat by lia. reflexivity.
    + rewrite Z.geb_leb in Hcap. apply Z.leb_gt in Hcap.
      replace (Z.to_nat (DUCKDUCKGO_MAX_RESULTS - i))
        with (S (Z.to_nat (DUCKDUCKGO_MAX_RESULTS - (i + 1)))) by lia.
      cbn [firstn parse_results].
      replace (i >=? DUCKDUCKGO_MAX_RESULTS)%Z with false
        by (symmetry; rewrite Z.geb_leb; apply Z.leb_gt; lia).
      rewrite <- (IH (i + 1)%Z) by lia. reflexivity.
Qed.

(** X7: only the first five blocks of a page count: two pages with the same
    first five blocks give the same results, so a complete block in sixth
    place or later is never returned, even when earlier blocks were
    dropped. *)
Theorem perform_duckduckgo_search_first_five (W W' : World) (query query' : str)
    (st st' : State) (divs divs' : list ResultDiv) :
  duckduckgo W (calls st) query = Page divs ->
  duckduckgo W' (calls st') query' = Page divs' ->
  firstn 5 divs = firstn 5 divs' ->
  fst (perform_duckduckgo_search W query st) = fst (perform_duckduckgo_search W' query' st').
Proof.
  intros H H' Hsame. rewrite !perform_duckduckgo_search_run, H, H'.
  cbn [fst search_outcome].
  rewrite (@parse_results_first_blocks 0 divs), (@parse_results_first_blocks 0 divs') by lia.
  change (Z.to_nat (DUCKDUCKGO_MAX_RESULTS - 0)) with 5%nat. now rewrite Hsame.
Qed.

Lemma perform_duckduckgo_search_first_five_witness :
  fst (perform_duckduckgo_search
         (constant_world None (Some (repeat bare_div 5 ++ [full_div "f"])) FetchFailed
            (StreamRefused ConnectionError))
         (lit "news") (initial_state stubborn_world))
  = fst (perform_duckduckgo_search
           (constant_world None (Some (repeat bare_div 5)) FetchFailed
              (StreamRefused ConnectionError))
           (lit "news") (initial_state stubborn_world)).
Proof.
  apply (@perform_duckduckgo_search_first_five _ _ _ _ _ _
           (repeat bare_div 5 ++ [full_div "f"]) (repeat bare_div 5));
    reflexivity.
Defined.

Lemma parse_results_complete (i : Z) (divs : list ResultDiv) :
  (0 <= i)%Z ->
  forallb complete (firstn (Z.to_nat (DUCKDUCKGO_MAX_RESULTS - i)) divs) = true ->
  List.length (parse_results i divs)
  = Nat.min (List.length divs) (Z.to_nat (DUCKDUCKGO_MAX_RESULTS - i)) /\
  forall k c, nth_error (parse_results i divs) k = Some c -> id c = (i + Z.of_nat k)%Z.
Proof.
  revert i. induction divs as [|d rest IH]; intros i Hi Hall.
  - cbn. split; [reflexivity | intros [|k] c H; discriminate H].
  - cbn [parse_results]. destruct (i >=? DUCKDUCKGO_MAX_RESULTS)%Z eqn:Hcap.
    + rewrite Z.geb_leb in Hcap. apply Z.leb_le in Hcap.
      replace (Z.to_nat (DUCKDUCKGO_MAX_RESULTS - i)) with 0%nat by lia.
      rewrite Nat.min_0_r. split; [reflexivity | intros [|k] c H; discriminate H].
    + rewrite Z.geb_leb in Hcap. apply Z.leb_gt in Hcap.
      replace (Z.to_nat (DUCKDUCKGO_MAX_RESULTS - i))
        with (S (Z.to_nat (DUCKDUCKGO_MAX_RESULTS - (i + 1)))) in * by lia.
      cbn [firstn forallb] in Hall. apply andb_true_iff in Hall.
      destruct Hall as [Hd Hrest]. unfold complete in Hd.
      destruct (title_tag d) as [a|]; [|discriminate Hd].
      destruct (href a) as [l|]; [|discriminate Hd]. rewrite Hd.
      destruct (IH (i + 1)%Z ltac:(lia) Hrest) as [Hlen Hids].
      split.
      * cbn [List.length Nat.min]. now rewrite Hlen.
      * intros [|k] c H; cbn [nth_error] in H.
        -- injection H as <-. cbn [id]. lia.
        -- rewrite (Hids k c H). lia.
Qed.

(** X8: when each of the first five blocks of the page has a title anchor
    with a link, nothing is dropped: min(number of blocks, 5) results are
    returned and the result in position k has id k, so ids and positions
    agree. *)
Theorem perform_duckduckgo_search_no_gap (W : World) (query : str) (st : State)
    (divs : list ResultDiv) :
  duckduckgo W (calls st) query = Page divs ->
  forallb complete (firstn 5 divs) = true ->
  exists results,
    fst (perform_duckduckgo_search W query st) = Ok results /\
    List.length results = Nat.min (List.length divs) 5 /\
    forall k c, nth_error results k = Some c -> id c = Z.of_nat k.
Proof.
  intros Hpage Hall. rewrite perform_duckduckgo_search_run, Hpage.
  cbn [fst search_outcome].
  exists (parse_results 0 divs). split; [reflexivity|].
  destruct (@parse_results_complete 0 divs ltac:(lia) Hall) as [Hlen Hids].
  split; [exact Hlen|]. intros k c H. rewrite (Hids k c H). lia.
Qed.

Lemma perform_duckduckgo_search_no_gap_witness :
  exists results,
    fst (perform_duckduckgo_search helpful_world (lit "news") (initial_state helpful_world))
    = Ok results /\
    List.length results = Nat.min 3 5 /\
    forall k c, nth_error results k = Some c -> id c = Z.of_nat k.
Proof.
  apply (@perform_duckduckgo_search_no_gap helpful_world (lit "news")
           (initial_state helpful_world) [full_div "a"; full_div "b"; full_div "c"]);
    reflexivity.
Defined.

(** ** Taking a result out of the working list (lines 294-313) *)

Lemma pop_inv (A : Type) (l : list A) (i : Z) (x : A) (rest : list A) :
  pop l i = Some (x, rest) ->
  exists k, (k < List.length l)%nat /\ nth_error l k = Some x /\
            rest = firstn k l ++ skipn (S k) l /\
            k = Z.to_nat (if (i <? 0)%Z then i + Z.of_nat (List.length l) else i)%Z.
Proof.
  unfold pop. set (j := (if (i <? 0)%Z then (i + Z.of_nat (List.length l))%Z else i)).
  destruct ((0 <=? j) && (j <? Z.of_nat (List.length l)))%Z eqn:Hrange; [|discriminate].
  apply andb_true_iff in Hrange. destruct Hrange as [H0 H1].
  apply Z.leb_le in H0. apply Z.ltb_lt in H1.
  destruct (nth_error l (Z.to_nat j)) as [y|] eqn:Hnth; [|discriminate].
  intros H. injection H as <- <-. exists (Z.to_nat j). repeat split; [lia | exact Hnth].
Qed.

Lemma nth_error_split_perm (A : Type) (l : list A) (k : nat) (x : A) :
  nth_error l k = Some x -> Permutation l (x :: firstn k l ++ skipn (S k) l).
Proof.
  revert k. induction l as [|a l IH]; intros [|k] H; cbn in H; try discriminate.
  - injection H as ->. cbn. reflexivity.
  - cbn [firstn skipn app]. rewrite perm_swap. constructor. now apply IH.
Qed.

Lemma pop_permutation (A : Type) (l : list A) (i : Z) (x : A) (rest : list A) :
  pop l i = Some (x, rest) -> Permutation l (x :: rest).
Proof.
  intros H. destruct (pop_inv _ _ H) as [k [_ [Hnth [-> _]]]].
  now apply nth_error_split_perm.
Qed.

Lemma take_result_some (best : option Z) (c : Candidate) (rest : list Candidate) :
  exists x remaining,
    take_result best (c :: rest) = Some (x, remaining) /\
    Permutation (c :: rest) (x :: remaining).
Proof.
  unfold take_result. destruct best as [b|].
  - destruct (pop (c :: rest) b) as [[x remaining]|] eqn:Hpop.
    + exists x, remaining. split; [reflexivity | now apply (pop_permutation _ _ Hpop)].
    + rewrite pop_first. now exists c, rest.
  - rewrite pop_first. now exists c, rest.
Qed.

(** X9: on a working list that is not empty, taking a result never fails,
    whatever index the selector named: exactly one result leaves the list
    and the others stay.  An index within the list takes the result at that
    position (not the one carrying that id); None or an index outside the
    list takes the first one. *)
Theorem take_result_removes_one (best : option Z) (available : list Candidate) :
  available <> [] ->
  exists x remaining,
    take_result best available = Some (x, remaining) /\
    Permutation available (x :: remaining) /\
    S (List.length remaining) = List.length available /\
    (forall b, best = Some b -> (0 <= b < Z.of_nat (List.length available))%Z ->
               nth_error available (Z.to_nat b) = Some x) /\
    (best = None \/
     (exists b, best = Some b /\
                ~ (- Z.of_nat (List.length available) <= b < Z.of_nat (List.length available))%Z) ->
     Some x = hd_error available).
Proof.
  intros Hne. destruct available as [|c rest]; [now elim Hne|].
  destruct (take_result_some best c rest) as [x [remaining [Htake Hperm]]].
  exists x, remaining. split; [exact Htake|]. split; [exact Hperm|].
  split; [apply Permutation_length in Hperm; cbn [List.length] in *; lia|].
  split.
  - intros b -> Hb. unfold take_result in Htake.
    destruct (pop (c :: rest) b) as [[y l]|] eqn:Hpop.
    + injection Htake as -> ->. destruct (pop_inv _ _ Hpop) as [k [_ [Hnth [_ Hk]]]].
      replace (b <? 0)%Z with false in Hk by (symmetry; apply Z.ltb_ge; lia).
      now subst k.
    + exfalso. unfold pop in Hpop.
      replace (b <? 0)%Z with false in Hpop by (symmetry; apply Z.ltb_ge; lia).
      replace ((0 <=? b) && (b <? Z.of_nat (List.length (c :: rest))))%Z with true in Hpop
        by (symmetry; apply andb_true_iff; split; [apply Z.leb_le | apply Z.ltb_lt]; lia).
      destruct (nth_error (c :: rest) (Z.to_nat b)) eqn:Hnth; [discriminate|].
      apply nth_error_None in Hnth. lia.
  - intros [-> | [b [-> Hb]]]; unfold take_result in Htake.
    + rewrite pop_first in Htake. now injection Htake as -> _.
    + destruct (pop (c :: rest) b) as [[y l]|] eqn:Hpop.
      * exfalso. apply Hb. destruct (pop_inv _ _ Hpop) as [k [Hlt [_ [_ Hk]]]].
        unfold pop in Hpop. destruct (b <? 0)%Z eqn:Hneg.
        -- apply Z.ltb_lt in Hneg.
           destruct ((0 <=? b + Z.of_nat (List.length (c :: rest)))
                     && (b + Z.of_nat (List.length (c :: rest))
                         <? Z.of_nat (List.length (c :: rest))))%Z eqn:Hr; [|discriminate].
           apply andb_true_iff in Hr. destruct Hr as [Hr _]. apply Z.leb_le in Hr. lia.
        -- apply Z.ltb_ge in Hneg. lia.
      * rewrite pop_first in Htake. now injection Htake as -> _.
Qed.

Lemma take_result_removes_one_witness :
  let available := parse_results 0 [full_div "a"; full_div "b"; full_div "c"] in
  exists x remaining,
    take_result (Some 7%Z) available = Some (x, remaining) /\
    Permutation available (x :: remaining) /\
    S (List.length remaining) = List.length available /\
    (forall b, Some 7%Z = Some b -> (0 <= b < Z.of_nat (List.length available))%Z ->
               nth_error available (Z.to_nat b) = Some x) /\
    (Some 7%Z = None \/
     (exists b, Some 7%Z = Some b /\
                ~ (- Z.of_nat (List.length available) <= b < Z.of_nat (List.length available))%Z) ->
     Some x = hd_error available).
Proof.
  apply (@take_result_removes_one (Some 7%Z)
           (parse_results 0 [full_div "a"; full_div "b"; full_div "c"])).
  discriminate.
Defined.

(** ** A run of the loop, step by step (lines 282-333) *)

Lemma select_best_outcome (W : World) search_results p q (st : State) :
  (exists best, fst (select_best_search_result_id W search_results p q st) = Ok best) \/
  (exists e, fst (select_best_search_result_id W search_results p q st) = Raise e /\
             is_Exception e = false).
Proof.
  unfold select_best_search_result_id. destruct search_results as [|c rest];
    [left; now exists None|].
  match goal with
  | |- context [select_attempts W ?n ?l ?ud st] =>
      pose proof (select_attempts_outcome W n l ud st) as H;
      destruct (select_attempts W n l ud st) as [r st']
  end.
  destruct H as [_ [_ [_ [[-> _] | [[b [-> _]] | [e [before [-> [He _]]]]]]]]].
  - left. now eexists.
  - left. now eexists.
  - right. now exists e.
Qed.

Lemma try_results_unfold (W : World) (n : nat) (c0 : Candidate)
    (rest0 : list Candidate) (p q : str) (st : State) :
  try_results W (S n) (c0 :: rest0) p q st
  = match select_best_search_result_id W (c0 :: rest0) p q st with
    | (Ok best, st1) =>
        match take_result best (c0 :: rest0) with
        | Some (x, remaining) =>
            match judged W x p q st1 with
            | (Ok (Some text), st3) => (Ok (Some text), st3)
            | (Ok None, st3) => try_results W n remaining p q st3
            | (Raise e, st3) => (Raise e, st3)
            end
        | None => (Ok None, st1)
        end
    | (Raise e, st1) => (Raise e, st1)
    end.
Proof.
  cbn [try_results]. unfold bind at 1.
  destruct (select_best_search_result_id W (c0 :: rest0) p q st) as [[best|e] st1];
    [|reflexivity].
  destruct (take_result best (c0 :: rest0)) as [[x remaining]|]; [|reflexivity].
  unfold judged, bind, ret.
  destruct (scrape_webpage_content W (link x) st1) as [[[text|]|e] st2]; try reflexivity.
  destruct (is_content_relevant W text p q st2) as [[[|]|e] st3]; reflexivity.
Qed.

Lemma judged_same_history (W : World) (x : Candidate) (p q : str) (st1 : State) :
  conversation_history (snd (judged W x p q st1)) = conversation_history st1.
Proof.
  unfold judged, bind. rewrite scrape_webpage_content_run.
  destruct (scrape_outcome _) as [[text|]|e]; try reflexivity.
  rewrite is_content_relevant_run. destruct (helper_outcome _); reflexivity.
Qed.

(** What one run of the loop amounts to: the results of [tried] were taken
    out one after the other and their pages fetched; a text that is
    returned was extracted from the page of one of them and judged
    relevant; what is raised is not an Exception. *)
Lemma try_results_run (W : World) (p q : str) (rounds : nat) :
  forall available st,
    let '(r, st') := try_results W rounds available p q st in
    conversation_history st' = conversation_history st /\
    exists tried rest,
      Permutation available (tried ++ rest) /\
      (List.length tried <= rounds)%nat /\
      scraped_urls (calls st') = scraped_urls (calls st) ++ map link tried /\
      match r with
      | Ok None => List.length tried = Nat.min rounds (List.length available)
      | Ok (Some text) => exists c, In c tried /\ relevant_content W c text p q
      | Raise e => is_Exception e = false
      end.
Proof.
  induction rounds as [|n IH]; intros available st.
  - cbn. split; [reflexivity|]. exists [], available. cbn. rewrite app_nil_r.
    repeat split; [reflexivity | lia].
  - destruct available as [|c0 rest0].
    + cbn. split; [reflexivity|]. exists [], []. cbn. rewrite app_nil_r.
      repeat split; [reflexivity | lia].
    + rewrite try_results_unfold.
      pose proof (select_best_outcome W (c0 :: rest0) p q st) as Hbest.
      pose proof (select_best_keeps_scraped_urls W (c0 :: rest0) p q st) as Hurls.
      pose proof (select_best_same_history W (c0 :: rest0) p q st) as Hhist.
      unfold same_history in Hhist.
      destruct (select_best_search_result_id W (c0 :: rest0) p q st) as [rb st1].
      cbn [fst snd] in *.
      destruct Hbest as [[best ->] | [e [-> He]]].
      2:{ split; [exact Hhist|]. exists [], (c0 :: rest0). cbn. rewrite app_nil_r.
          repeat split; [reflexivity | lia | exact Hurls | exact He]. }
      destruct (take_result_some best c0 rest0) as [x [remaining [-> Hperm]]].
      pose proof (judged_run W x p q st1) as Hjudged.
      pose proof (judged_same_history W x p q st1) as Hjh.
      destruct (judged W x p q st1) as [rj st3]. cbn [snd] in Hjh.
      destruct Hjudged as [Htrace Hcontent].
      destruct rj as [[text|]|e].
      * split; [congruence|]. exists [x], remaining. repeat split.
        -- exact Hperm.
        -- cbn. lia.
        -- cbn [map]. now rewrite Htrace, Hurls.
        -- exists x. split; [now left | exact Hcontent].
      * specialize (IH remaining st3).
        destruct (try_results W n remaining p q st3) as [r st'].
        destruct IH as [Hh [tried [rest [Hp [Hlen [Htr Hr]]]]]].
        split; [congruence|].
        exists (x :: tried), rest. repeat split.
        -- rewrite Hperm. cbn [app]. now constructor.
        -- cbn [List.length]. lia.
        -- cbn [map]. rewrite Htr, Htrace, Hurls, <- app_assoc. reflexivity.
        -- destruct r as [[text|]|e]; [| |exact Hr].
           ++ destruct Hr as [c [Hin Hrel]]. exists c. split; [now right | exact Hrel].
           ++ apply Permutation_length in Hperm. cbn [List.length Nat.min] in *. lia.
      * split; [congruence|]. exists [x], remaining. repeat split.
        -- exact Hperm.
        -- cbn. lia.
        -- cbn [map]. now rewrite Htrace, Hurls.
        -- exact Hcontent.
Qed.

Lemma select_best_raise (W : World) search_results p q (st : State) (e : exn) :
  fst (select_best_search_result_id W search_results p q st) = Raise e -> interrupts W e.
Proof.
  unfold select_best_search_result_id. destruct search_results as [|c rest];
    [discriminate|].
  match goal with
  | |- context [select_attempts W ?n ?l ?ud st] =>
      pose proof (select_attempts_outcome W n l ud st) as H;
      destruct (select_attempts W n l ud st) as [r st']
  end.
  cbn [fst]. intros ->.
  destruct H as [_ [_ [_ [[H _] | [[b [H _]] | [e' [before [H [He [Hchat _]]]]]]]]]];
    try discriminate H.
  injection H as <-. split; [exact He|]. left. do 3 eexists; eassumption.
Qed.

Lemma judged_raise (W : World) (first : Candidate) (p q : str) (st1 : State) (e : exn) :
  fst (judged W first p q st1) = Raise e -> interrupts W e.
Proof.
  unfold judged, bind. rewrite scrape_webpage_content_run.
  destruct (scrape_outcome (trafilatura W (calls st1) (link first)))
    as [[text|]|e'] eqn:Hpage.
  - rewrite is_content_relevant_run.
    destruct (helper_outcome _) as [content|e'] eqn:Hrel.
    + destruct (says_true content); discriminate.
    + cbn [fst]. intros H. injection H as ->.
      apply helper_outcome_raise in Hrel. destruct Hrel as [Hchat He].
      split; [exact He|]. left. do 3 eexists; eassumption.
  - discriminate.
  - cbn [fst]. intros H. injection H as ->.
    destruct (trafilatura W (calls st1) (link first)) as [| [t|] |e'] eqn:Hanswer;
      cbn in Hpage; try discriminate.
    destruct (is_Exception e') eqn:He; [discriminate|]. injection Hpage as ->.
    split; [exact He|]. right. do 2 eexists; eassumption.
Qed.

Lemma try_results_raise (W : World) (p q : str) (rounds : nat) :
  forall available st e,
    fst (try_results W rounds available p q st) = Raise e -> interrupts W e.
Proof.
  induction rounds as [|n IH]; intros available st e; [discriminate|].
  destruct available as [|c0 rest0]; [discriminate|].
  rewrite try_results_unfold.
  pose proof (@select_best_raise W (c0 :: rest0) p q st) as Hbest.
  destruct (select_best_search_result_id W (c0 :: rest0) p q st) as [[best|e'] st1];
    cbn [fst] in *.
  2:{ intros H. injection H as ->. now apply Hbest. }
  destruct (take_result best (c0 :: rest0)) as [[x remaining]|]; [|discriminate].
  pose proof (@judged_raise W x p q st1) as Hjudged.
  destruct (judged W x p q st1) as [[[text|]|e'] st3]; cbn [fst] in *.
  - discriminate.
  - apply IH.
  - intros H. injection H as ->. now apply Hjudged.
Qed.

(** X10: no Exception leaves the candidate loop: what leaves it is an
    exception that is not an Exception, such as a KeyboardInterrupt, raised
    by a chat request or a page fetch of the loop.  No result is tried
    twice: the pages fetched are those of distinct entries of the working
    list, at most one per round; and when the loop returns None,
    min(rounds, number of results) of them were tried. *)
Theorem try_results_tries_each_once (W : World) (p q : str) (rounds : nat)
    (available : list Candidate) (st : State) :
  let '(r, st') := try_results W rounds available p q st in
  (forall e, r = Raise e -> interrupts W e) /\
  exists tried rest,
    Permutation available (tried ++ rest) /\
    (List.length tried <= rounds)%nat /\
    scraped_urls (calls st') = scraped_urls (calls st) ++ map link tried /\
    (r = Ok None -> List.length tried = Nat.min rounds (List.length available)).
Proof.
  pose proof (try_results_run W p q rounds available st) as H.
  pose proof (@try_results_raise W p q rounds available st) as Hraise.
  destruct (try_results W rounds available p q st) as [r st'].
  destruct H as [_ [tried [rest [Hperm [Hlen [Htrace Hr]]]]]].
  split.
  - intros e ->. now apply Hraise.
  - exists tried, rest. repeat split; try assumption. now intros ->.
Qed.

(** X10 in a world where every request is interrupted: the interrupt of the
    first selection request leaves the loop and no page is fetched. *)
Lemma try_results_interrupted :
  let '(r, st') := try_results interrupted_world 3
                     (parse_results 0 [full_div "a"; full_div "b"])
                     (lit "p") (lit "q") (initial_state interrupted_world) in
  r = Raise KeyboardInterrupt /\ scraped_urls (calls st') = [].
Proof. vm_compute. split; reflexivity. Qed.

(** X11: a text returned by the loop is never empty; it is what trafilatura
    extracted from the page of one of the results of the working list, and
    the model's reply to the relevance request for that text contained
    "true". *)
Theorem try_results_returns_relevant_page (W : World) (p q : str) (rounds : nat)
    (available : list Candidate) (st : State) (text : str) :
  fst (try_results W rounds available p q st) = Ok (Some text) ->
  text <> [] /\
  exists c before before',
    In c available /\
    trafilatura W before (link c) = Extracted (Some text) /\
    says_true (content_of (ollama_chat W before' contains_data_msg
                             (relevance_user_data text p q))) = true.
Proof.
  intros Hrun. pose proof (try_results_run W p q rounds available st) as H.
  destruct (try_results W rounds available p q st) as [r st'].
  cbn [fst] in Hrun. subst r.
  destruct H as [_ [tried [rest [Hperm [_ [_ [c [Hin [b1 [b2 [Hpage [Htext Hrel]]]]]]]]]]]].
  split; [exact Htext|].
  exists c, b1, b2. repeat split; [|exact Hpage | exact Hrel].
  eapply Permutation_in; [symmetry; exact Hperm|]. apply in_or_app. now left.
Qed.

Lemma try_results_returns_relevant_page_witness :
  let available := parse_results 0 [full_div "a"; full_div "b"; full_div "c"] in
  let text := lit "Sunny, 21 degrees. " ++ lit "https://example.org/b" in
  text <> [] /\
  exists c before before',
    In c available /\
    trafilatura helpful_world before (link c) = Extracted (Some text) /\
    says_true (content_of (ollama_chat helpful_world before' contains_data_msg
                             (relevance_user_data text (lit "p") (lit "q")))) = true.
Proof.
  apply (@try_results_returns_relevant_page helpful_world (lit "p") (lit "q") 3
           (parse_results 0 [full_div "a"; full_div "b"; full_div "c"])
           (initial_state helpful_world)).
  vm_compute. reflexivity.
Defined.

(** ** A run of the pipeline (lines 265-335) *)

Lemma same_session_refl st : same_session st st.
Proof. split; reflexivity. Qed.

Lemma same_session_trans a b c : same_session a b -> same_session b c -> same_session a c.
Proof. unfold same_session. intros [H1 H2] [H3 H4]. split; congruence. Qed.

Lemma same_session_record c st : same_session st (record_call c st).
Proof. split; reflexivity. Qed.

Lemma select_best_same_session (W : World) search_results p q :
  respects same_session (select_best_search_result_id W search_results p q).
Proof.
  unfold select_best_search_result_id. destruct search_results.
  - apply (@respects_ret _ same_session_refl).
  - intros st.
    match goal with
    | |- context [select_attempts W ?n ?l ?ud st] =>
        pose proof (select_attempts_outcome W n l ud st) as H;
        destruct (select_attempts W n l ud st) as [r st']
    end.
    split; [exact (proj1 H) | exact (proj1 (proj2 H))].
Qed.

Ltac frame_session :=
  repeat first
    [ apply (@chat_respects same_session same_session_record)
    | apply (@scrape_respects same_session same_session_record)
    | apply (@search_respects same_session same_session_record)
    | apply select_best_same_session
    | assumption
    | frame_step same_session_refl same_session_trans ].

Lemma try_results_same_session (W : World) rounds available p q :
  respects same_session (try_results W rounds available p q).
Proof.
  revert available. induction rounds as [|n IH]; intros available; cbn [try_results].
  - frame_session.
  - unfold is_content_relevant.
    destruct available as [|c rest]; [frame_session|].
    apply (@respects_bind _ same_session_trans); [apply select_best_same_session|].
    intros best. destruct (take_result best (c :: rest)) as [[chosen remaining]|].
    + pose proof (IH remaining). frame_session.
    + frame_session.
Qed.

Lemma run_ai_search_pipeline_same_session (W : World) p :
  respects same_session (run_ai_search_pipeline W p).
Proof.
  unfold run_ai_search_pipeline, generate_search_query.
  apply (@respects_bind _ same_session_trans); [frame_session|].
  intros [q|]; [|frame_session]. destruct (negb (truthy q)); [frame_session|].
  apply (@respects_bind _ same_session_trans); [frame_session|].
  intros [|c rest]; [frame_session|]. apply try_results_same_session.
Qed.

Lemma search_outcome_raise (answer : Searched) (e : exn) :
  search_outcome answer = Raise e ->
  (answer = RequestRaises e /\ is_RequestException e = false) \/ answer = ParseRaises e.
Proof.
  destruct answer as [e'|e'|divs]; cbn; [| |discriminate].
  - destruct (is_RequestException e') eqn:He; [discriminate|]. intros H. injection H as <-.
    now left.
  - intros H. injection H as <-. now right.
Qed.

(** The pipeline, stage by stage. *)
Lemma run_ai_search_pipeline_stages (W : World) (p : str) (st : State) :
  let st1 := record_call (CallChat query_msg (user_data_for_llm p)) st in
  match helper_outcome (ollama_chat W (calls st) query_msg (user_data_for_llm p)) with
  | Raise e => run_ai_search_pipeline W p st = (Raise e, st1)
  | Ok None => run_ai_search_pipeline W p st = (Ok None, st1)
  | Ok (Some reply) =>
      let query := strip_quotes reply in
      let st2 := record_call (CallSearch query) st1 in
      if truthy query then
        match search_outcome (duckduckgo W (calls st1) query) with
        | Raise e => run_ai_search_pipeline W p st = (Raise e, st2)
        | Ok [] => run_ai_search_pipeline W p st = (Ok None, st2)
        | Ok (c :: rest) =>
            run_ai_search_pipeline W p st
            = try_results W (Nat.min (List.length (c :: rest)) SEARCH_RETRY_LIMIT)
                (c :: rest) p query st2
        end
      else run_ai_search_pipeline W p st = (Ok None, st1)
  end.
Proof.
  cbv zeta.
  destruct (helper_outcome (ollama_chat W (calls st) query_msg (user_data_for_llm p)))
    as [[reply|]|e] eqn:Hhelper.
  - assert (Hq : generate_search_query W p st
                 = (Ok (Some (strip_quotes reply)),
                    record_call (CallChat query_msg (user_data_for_llm p)) st)).
    { unfold generate_search_query, bind. rewrite _call_ollama_chat_run, Hhelper.
      destruct reply; reflexivity. }
    destruct (truthy (strip_quotes reply)) eqn:Htruthy.
    + assert (Hs : run_ai_search_pipeline W p st
                   = (search_results_list <- perform_duckduckgo_search W (strip_quotes reply) ;;
                      match search_results_list with
                      | [] => ret None
                      | _ :: _ =>
                          try_results W
                            (Nat.min (List.length search_results_list) SEARCH_RETRY_LIMIT)
                            search_results_list p (strip_quotes reply)
                      end)%py
                       (record_call (CallChat query_msg (user_data_for_llm p)) st)).
      { unfold run_ai_search_pipeline. unfold bind at 1. rewrite Hq, Htruthy. reflexivity. }
      rewrite Hs. unfold bind. rewrite perform_duckduckgo_search_run.
      destruct (search_outcome _) as [[|c rest]|e]; reflexivity.
    + unfold run_ai_search_pipeline. unfold bind at 1. rewrite Hq, Htruthy. reflexivity.
  - unfold run_ai_search_pipeline, generate_search_query, bind.
    rewrite _call_ollama_chat_run, Hhelper. reflexivity.
  - unfold run_ai_search_pipeline, generate_search_query, bind.
    rewrite _call_ollama_chat_run, Hhelper. reflexivity.
Qed.

Lemma run_ai_search_pipeline_outcome (W : World) (p : str) (st : State) :
  let '(r, st') := run_ai_search_pipeline W p st in
  (r = Ok None \/
   (exists text, r = Ok (Some text) /\ text <> []) \/
   (exists e, r = Raise e /\ escapes W e)) /\
  conversation_history st' = conversation_history st /\
  stdout st' = stdout st.
Proof.
  pose proof (run_ai_search_pipeline_same_session W p st) as Hsession.
  pose proof (run_ai_search_pipeline_stages W p st) as Hstages. cbv zeta in Hstages.
  destruct (helper_outcome (ollama_chat W (calls st) query_msg (user_data_for_llm p)))
    as [[reply|]|e] eqn:Hquery.
  - destruct (truthy (strip_quotes reply)).
    + destruct (search_outcome _) as [[|c rest]|e] eqn:Hsearch.
      * rewrite Hstages in *. split; [now left | exact Hsession].
      * rewrite Hstages in *.
        match goal with
        | |- context [try_results W ?n ?l ?a ?b ?s] =>
            pose proof (try_results_run W a b n l s) as H;
            pose proof (@try_results_raise W a b n l s) as Hraise;
            destruct (try_results W n l a b s) as [r st'] eqn:Hloop
        end.
        split; [|exact Hsession].
        destruct H as [_ [tried [rest' [_ [_ [_ Hr]]]]]].
        destruct r as [[text|]|e]; [right; left | now left | right; right].
        -- exists text. split; [reflexivity|].
           destruct Hr as [c' [_ [b1 [b2 [_ [Htext _]]]]]]. exact Htext.
        -- exists e. split; [reflexivity | left; now apply Hraise].
      * rewrite Hstages in *. split; [|exact Hsession]. right. right.
        exists e. split; [reflexivity|]. right.
        apply search_outcome_raise in Hsearch. destruct Hsearch as [[Hraise He] | Hraise].
        -- left. split; [exact He|]. do 2 eexists; eassumption.
        -- right. do 2 eexists; eassumption.
    + rewrite Hstages in *. split; [now left | exact Hsession].
  - rewrite Hstages in *. split; [now left | exact Hsession].
  - rewrite Hstages in *. split; [|exact Hsession]. right. right.
    apply helper_outcome_raise in Hquery. destruct Hquery as [Hchat He].
    exists e. split; [reflexivity|]. left. split; [exact He|]. left. do 3 eexists; eassumption.
Qed.

(** X12: run_ai_search_pipeline never prints and never touches
    conversation_history.  It returns None or a text that is not empty; an
    exception leaves it only when a service raised it and no handler stops
    it: a chat request or a page fetch raised something that is not an
    Exception, the search request raised something that is not a
    RequestException, or the parse of the search page raised. *)
Theorem run_ai_search_pipeline_safe (W : World) (p : str) (st : State) :
  let '(r, st') := run_ai_search_pipeline W p st in
  (r = Ok None \/
   (exists text, r = Ok (Some text) /\ text <> []) \/
   (exists e, r = Raise e /\ escapes W e)) /\
  conversation_history st' = conversation_history st /\
  stdout st' = stdout st.
Proof. apply run_ai_search_pipeline_outcome. Qed.

(** X12, the third case: in a world where every request is interrupted, the
    interrupt of the query request leaves the pipeline. *)
Lemma run_ai_search_pipeline_interrupted :
  fst (run_ai_search_pipeline interrupted_world (lit "news")
         (initial_state interrupted_world)) = Raise KeyboardInterrupt.
Proof. reflexivity. Qed.

(** X13: when the query-synthesis call raises an Exception, or its reply is
    empty once the quotes are stripped (an empty reply, a lone quote
    character, a pair of quotes), the pipeline returns None after that one
    call: nothing is searched, selected or fetched. *)
Theorem pipeline_aborts_without_query (W : World) (p : str) (st : State) :
  (exists e, ollama_chat W (calls st) query_msg (user_data_for_llm p) = Raise e /\
             is_Exception e = true) \/
  (exists reply, ollama_chat W (calls st) query_msg (user_data_for_llm p) = Ok reply /\
                 strip_quotes reply = []) ->
  run_ai_search_pipeline W p st
  = (Ok None, record_call (CallChat query_msg (user_data_for_llm p)) st).
Proof.
  intros H. pose proof (run_ai_search_pipeline_stages W p st) as Hstages. cbv zeta in Hstages.
  destruct H as [[e [H He]] | [reply [H Hempty]]]; rewrite H in Hstages;
    cbn [helper_outcome] in Hstages.
  - rewrite He in Hstages. exact Hstages.
  - rewrite Hempty in Hstages. exact Hstages.
Qed.

Lemma pipeline_aborts_without_query_witness :
  run_ai_search_pipeline
    (constant_world (Some [dquote; dquote]) (Some [full_div "a"]) FetchFailed
       (StreamRefused ConnectionError))
    (lit "hello") (initial_state stubborn_world)
  = (Ok None,
     record_call (CallChat query_msg (user_data_for_llm (lit "hello")))
       (initial_state stubborn_world)).
Proof.
  apply pipeline_aborts_without_query. right. exists [dquote; dquote].
  split; reflexivity.
Defined.

(** X14: when the search request fails or the page yields no result, the
    pipeline returns None after the query call and the search call: the
    model is not asked to select and no page is fetched. *)
Theorem pipeline_aborts_without_results (W : World) (p reply : str) (st : State) :
  ollama_chat W (calls st) query_msg (user_data_for_llm p) = Ok reply ->
  strip_quotes reply <> [] ->
  fst (perform_duckduckgo_search W (strip_quotes reply)
         (record_call (CallChat query_msg (user_data_for_llm p)) st)) = Ok [] ->
  run_ai_search_pipeline W p st
  = (Ok None,
     record_call (CallSearch (strip_quotes reply))
       (record_call (CallChat query_msg (user_data_for_llm p)) st)).
Proof.
  intros Hreply Hquery Hsearch.
  pose proof (run_ai_search_pipeline_stages W p st) as Hstages. cbv zeta in Hstages.
  rewrite Hreply in Hstages. cbn [helper_outcome] in Hstages.
  destruct (strip_quotes reply) as [|c l] eqn:Hq; [now elim Hquery|]. cbn [truthy] in Hstages.
  rewrite perform_duckduckgo_search_run in Hsearch. cbn [fst] in Hsearch.
  rewrite Hsearch in Hstages. exact Hstages.
Qed.

Lemma pipeline_aborts_without_results_witness :
  run_ai_search_pipeline
    (constant_world (Some (lit "news")) None FetchFailed (StreamRefused ConnectionError))
    (lit "hello") (initial_state stubborn_world)
  = (Ok None,
     record_call (CallSearch (strip_quotes (lit "news")))
       (record_call (CallChat query_msg (user_data_for_llm (lit "hello")))
          (initial_state stubborn_world))).
Proof.
  apply (@pipeline_aborts_without_results
           (constant_world (Some (lit "news")) None FetchFailed (StreamRefused ConnectionError))
           (lit "hello") (lit "news") (initial_state stubborn_world)).
  - reflexivity.
  - discriminate.
  - reflexivity.
Defined.

(** ** The cost of a run in external calls *)

Lemma count_calls_app (kind : Call -> bool) (cs ds : list Call) :
  count_calls kind (cs ++ ds) = (count_calls kind cs + count_calls kind ds)%nat.
Proof. unfold count_calls. now rewrite filter_app, length_app. Qed.

Lemma count_any_call (cs : list Call) : count_calls any_call cs = List.length cs.
Proof.
  unfold count_calls. induction cs as [|c cs IH]; [reflexivity|]. cbn. now rewrite IH.
Qed.

Section Budget.

(** [kind] is the kind of call that is counted; a chat request, a search
    and a page fetch count for at most [chat_cost], [search_cost] and
    [scrape_cost]. *)
Variable kind : Call -> bool.
Variables chat_cost search_cost scrape_cost : nat.
Hypothesis chat_bound : forall p ud, (count_calls kind [CallChat p ud] <= chat_cost)%nat.
Hypothesis search_bound : forall q, (count_calls kind [CallSearch q] <= search_cost)%nat.
Hypothesis scrape_bound : forall url, (count_calls kind [CallScrape url] <= scrape_cost)%nat.

Lemma adds_calls_ret A (a : A) (n : nat) : adds_calls kind n (ret a).
Proof. intros st. cbn. lia. Qed.

Lemma adds_calls_weaken A (a b : nat) (m : M A) :
  (a <= b)%nat -> adds_calls kind a m -> adds_calls kind b m.
Proof. intros Hab Hm st. specialize (Hm st). lia. Qed.

Lemma adds_calls_bind A B (a b : nat) (m : M A) (k : A -> M B) :
  adds_calls kind a m -> (forall x, adds_calls kind b (k x)) ->
  adds_calls kind (a + b) (bind m k).
Proof.
  intros Hm Hk st. unfold bind. specialize (Hm st).
  destruct (m st) as [[x|e] st1]; cbn [snd] in *.
  - specialize (Hk x st1). lia.
  - lia.
Qed.

Lemma adds_calls_call A (c : Call) (answer : list Call -> A) (n : nat) :
  (count_calls kind [c] <= n)%nat -> adds_calls kind n (call c answer).
Proof.
  intros Hc st. unfold call, record_call. cbn [snd calls]. rewrite count_calls_app. lia.
Qed.

Lemma adds_calls_chat (W : World) (p : Prompt) (ud : list (str * str)) :
  adds_calls kind chat_cost (_call_ollama_chat W p ud).
Proof.
  intros st. rewrite _call_ollama_chat_run. cbn [snd record_call calls].
  rewrite count_calls_app. pose proof (chat_bound p ud). lia.
Qed.

Lemma adds_calls_check_reply content search_results :
  adds_calls kind 0 (check_reply content search_results).
Proof.
  intros st.
  destruct (check_reply_outcome stubborn_world content search_results st)
    as [H | [b [H _]]]; rewrite H; cbn [snd]; lia.
Qed.

Lemma adds_calls_select_attempts (W : World) attempts search_results user_data :
  adds_calls kind (attempts * chat_cost) (select_attempts W attempts search_results user_data).
Proof.
  induction attempts as [|n IH]; cbn [select_attempts].
  - apply adds_calls_ret.
  - apply adds_calls_weaken with (a := (chat_cost + (0 + n * chat_cost))%nat); [cbn; lia|].
    apply adds_calls_bind; [apply adds_calls_chat|].
    intros content. apply adds_calls_bind; [apply adds_calls_check_reply|].
    intros [b|]; [apply adds_calls_ret | exact IH].
Qed.

Lemma adds_calls_select_best (W : World) search_results p q :
  adds_calls kind (3 * chat_cost) (select_best_search_result_id W search_results p q).
Proof.
  unfold select_best_search_result_id. destruct search_results as [|c rest].
  - apply adds_calls_ret.
  - apply (adds_calls_select_attempts W SEARCH_RETRY_LIMIT).
Qed.

Lemma adds_calls_scrape (W : World) url :
  adds_calls kind scrape_cost (scrape_webpage_content W url).
Proof.
  intros st. rewrite scrape_webpage_content_run. cbn [snd record_call calls].
  rewrite count_calls_app. pose proof (scrape_bound url). lia.
Qed.

Lemma adds_calls_relevant (W : World) text p q :
  adds_calls kind chat_cost (is_content_relevant W text p q).
Proof.
  intros st. rewrite is_content_relevant_run. cbn [snd record_call calls].
  rewrite count_calls_app. pose proof (chat_bound contains_data_msg (relevance_user_data text p q)).
  lia.
Qed.

Lemma adds_calls_try_results (W : World) rounds available p q :
  adds_calls kind (rounds * (4 * chat_cost + scrape_cost)) (try_results W rounds available p q).
Proof.
  revert available. induction rounds as [|n IH]; intros available; cbn [try_results].
  - apply adds_calls_ret.
  - destruct available as [|c rest]; [apply adds_calls_ret|].
    apply adds_calls_weaken
      with (a := (3 * chat_cost
                  + (scrape_cost + (chat_cost + n * (4 * chat_cost + scrape_cost))))%nat);
      [cbn; lia|].
    apply adds_calls_bind; [apply adds_calls_select_best|].
    intros best. destruct (take_result best (c :: rest)) as [[chosen remaining]|];
      [|apply adds_calls_ret].
    apply adds_calls_bind; [apply adds_calls_scrape|].
    intros [text|].
    + apply adds_calls_bind; [apply adds_calls_relevant|].
      intros [|]; [apply adds_calls_ret | apply IH].
    + eapply adds_calls_weaken; [|apply IH]. lia.
Qed.

Lemma adds_calls_pipeline (W : World) p :
  adds_calls kind (chat_cost + search_cost + 3 * (4 * chat_cost + scrape_cost))
    (run_ai_search_pipeline W p).
Proof.
  intros st. pose proof (run_ai_search_pipeline_stages W p st) as Hstages.
  cbv zeta in Hstages.
  pose proof (chat_bound query_msg (user_data_for_llm p)) as Hchat.
  destruct (helper_outcome (ollama_chat W (calls st) query_msg (user_data_for_llm p)))
    as [[reply|]|e].
  - destruct (truthy (strip_quotes reply)).
    + pose proof (search_bound (strip_quotes reply)) as Hsearch.
      destruct (search_outcome _) as [[|c rest]|e]; rewrite Hstages.
      * cbn [snd record_call calls]. rewrite !count_calls_app. lia.
      * match goal with
        | |- context [try_results W ?n ?l ?a ?b ?s] =>
            pose proof (adds_calls_try_results W n l a b s) as H
        end.
        cbn [record_call calls] in H. rewrite !count_calls_app in H.
        unfold SEARCH_RETRY_LIMIT in *.
        assert (Hrounds : (Nat.min (List.length (c :: rest)) 3 * (4 * chat_cost + scrape_cost)
                           <= 3 * (4 * chat_cost + scrape_cost))%nat)
          by (apply Nat.mul_le_mono_r; lia).
        lia.
      * cbn [snd record_call calls]. rewrite !count_calls_app. lia.
    + rewrite Hstages. cbn [snd record_call calls]. rewrite count_calls_app. lia.
  - rewrite Hstages. cbn [snd record_call calls]. rewrite count_calls_app. lia.
  - rewrite Hstages. cbn [snd record_call calls]. rewrite count_calls_app. lia.
Qed.

End Budget.

(** X15: one run of run_ai_search_pipeline makes at most 17 external calls
    (one query request, one search, and in each of at most three rounds up
    to three selection requests, one page fetch and one relevance request)
    and fetches at most 3 pages; 17 calls are made when three results are
    found, the model never names one and no page is judged relevant. *)
Theorem pipeline_call_budget (W : World) (p : str) (st : State) :
  (List.length (calls (snd (run_ai_search_pipeline W p st))) <= List.length (calls st) + 17)%nat /\
  (count_calls is_scrape_call (calls (snd (run_ai_search_pipeline W p st)))
   <= count_calls is_scrape_call (calls st) + 3)%nat /\
  List.length (calls (snd (run_ai_search_pipeline talkative_world p
                             (initial_state talkative_world)))) = 17%nat.
Proof.
  split; [|split].
  - pose proof (@adds_calls_pipeline any_call 1 1 1) as H.
    specialize (H ltac:(intros; cbn; lia) ltac:(intros; cbn; lia) ltac:(intros; cbn; lia) W p st).
    rewrite !count_any_call in H. cbn in H. lia.
  - pose proof (@adds_calls_pipeline is_scrape_call 0 0 1) as H.
    specialize (H ltac:(intros; cbn; lia) ltac:(intros; cbn; lia) ltac:(intros; cbn; lia) W p st).
    cbn in H. lia.
  - vm_compute. reflexivity.
Qed.

(** ** Runs that succeed at once and runs that cannot succeed *)

Lemma pop_in_range (A : Type) (l : list A) (b : Z) (x : A) :
  (0 <= b < Z.of_nat (List.length l))%Z ->
  nth_error l (Z.to_nat b) = Some x ->
  pop l b = Some (x, firstn (Z.to_nat b) l ++ skipn (S (Z.to_nat b)) l).
Proof.
  intros Hb Hnth. unfold pop.
  replace (b <? 0)%Z with false by (symmetry; apply Z.ltb_ge; lia).
  replace ((0 <=? b) && (b <? Z.of_nat (List.length l)))%Z with true
    by (symmetry; apply andb_true_iff; split; [apply Z.leb_le | apply Z.ltb_lt]; lia).
  now rewrite Hnth.
Qed.

Lemma select_best_first_reply (W : World) (c0 : Candidate) (rest : list Candidate)
    (p q reply : str) (b : Z) (st : State) :
  ollama_chat W (calls st) best_search_msg (selection_user_data (c0 :: rest) p q) = Ok reply ->
  parse_int reply = Some b ->
  (0 <= b < Z.of_nat (List.length (c0 :: rest)))%Z ->
  select_best_search_result_id W (c0 :: rest) p q st
  = (Ok (Some b),
     record_call (CallChat best_search_msg (selection_user_data (c0 :: rest) p q)) st).
Proof.
  intros Hreply Hparse Hb.
  unfold select_best_search_result_id, SEARCH_RETRY_LIMIT.
  change [(lit "s_results", join [newline] (map format_result (c0 :: rest)));
          (lit "user_prompt", p); (lit "search_query", q)]
    with (selection_user_data (c0 :: rest) p q).
  cbv zeta. cbn [select_attempts]. unfold bind at 1. rewrite _call_ollama_chat_run.
  rewrite Hreply. cbn [helper_outcome]. unfold bind at 1, check_reply.
  assert (Htruthy : truthy reply = true) by (destruct reply; [discriminate Hparse | reflexivity]).
  rewrite Htruthy. unfold try_except, bind at 1, int. rewrite Hparse. unfold ret.
  replace ((0 <=? b) && (b <? Z.of_nat (List.length (c0 :: rest))))%Z with true
    by (symmetry; apply andb_true_iff; split; [apply Z.leb_le | apply Z.ltb_lt]; lia).
  reflexivity.
Qed.

(** X16: when the model's first reply to the selection request is, as
    Python's int reads it, the number of a position in the working list, the
    page of the result at that position has text and the model finds it
    relevant, the loop returns that text after exactly three calls: one
    selection request, one page fetch and one relevance request. *)
Theorem try_results_first_choice (W : World) (p q : str) (rounds : nat)
    (available : list Candidate) (st : State) (reply text : str) (b : Z) (c : Candidate) :
  ollama_chat W (calls st) best_search_msg (selection_user_data available p q) = Ok reply ->
  parse_int reply = Some b ->
  (0 <= b < Z.of_nat (List.length available))%Z ->
  nth_error available (Z.to_nat b) = Some c ->
  trafilatura W (calls st ++ [CallChat best_search_msg (selection_user_data available p q)])
    (link c) = Extracted (Some text) ->
  text <> [] ->
  says_true
    (content_of
       (ollama_chat W
          (calls st ++ [CallChat best_search_msg (selection_user_data available p q)]
             ++ [CallScrape (link c)])
          contains_data_msg (relevance_user_data text p q))) = true ->
  let '(r, st') := try_results W (S rounds) available p q st in
  r = Ok (Some text) /\
  calls st' = calls st ++ [CallChat best_search_msg (selection_user_data available p q);
                           CallScrape (link c);
                           CallChat contains_data_msg (relevance_user_data text p q)].
Proof.
  intros Hreply Hparse Hb Hnth Hpage Htext Hrel.
  destruct available as [|c0 rest]; [cbn in Hb; lia|].
  cbn [try_results]. unfold bind at 1.
  rewrite (@select_best_first_reply W c0 rest p q reply b st Hreply Hparse Hb).
  cbn [take_result]. rewrite (@pop_in_range _ (c0 :: rest) b c Hb Hnth).
  unfold bind at 1. rewrite scrape_webpage_content_run. cbn [record_call calls].
  rewrite Hpage. cbn [scrape_outcome].
  assert (Htruthy : truthy text = true) by (destruct text; [now elim Htext | reflexivity]).
  rewrite Htruthy. unfold bind at 1. rewrite is_content_relevant_run.
  unfold record_call at 1 2 3. cbn [calls]. rewrite <- app_assoc in *.
  destruct (ollama_chat W
              (calls st ++ [CallChat best_search_msg (selection_user_data (c0 :: rest) p q)]
                 ++ [CallScrape (link c)])
              contains_data_msg (relevance_user_data text p q)) as [answer|e];
    [|discriminate Hrel].
  cbn [content_of] in Hrel. cbn [helper_outcome]. rewrite Hrel.
  unfold ret. cbv beta iota. cbn [calls record_call].
  split; [reflexivity|]. rewrite <- !app_assoc. reflexivity.
Qed.

Lemma try_results_first_choice_witness :
  let available := parse_results 0 [full_div "a"; full_div "b"; full_div "c"] in
  let text := lit "Sunny, 21 degrees. " ++ lit "https://example.org/b" in
  let '(r, st') := try_results helpful_world 3 available (lit "p") (lit "q")
                     (initial_state helpful_world) in
  r = Ok (Some text) /\
  calls st' = [CallChat best_search_msg (selection_user_data available (lit "p") (lit "q"));
               CallScrape (lit "https://example.org/b");
               CallChat contains_data_msg (relevance_user_data text (lit "p") (lit "q"))].
Proof.
  apply (@try_results_first_choice helpful_world (lit "p") (lit "q") 2
           (parse_results 0 [full_div "a"; full_div "b"; full_div "c"])
           (initial_state helpful_world) (lit "1")
           (lit "Sunny, 21 degrees. " ++ lit "https://example.org/b") 1
           {| id := 1; title := lit "b"; link := lit "https://example.org/b";
              snippet := lit "No description available." |});
    try reflexivity.
  - cbn. lia.
  - discriminate.
Defined.

(** X17: when no page yields text, or the model never finds a text
    relevant, run_ai_search_pipeline returns no text: it returns None, unless
    an exception that a request raised leaves it. *)
Theorem pipeline_without_relevant_text (W : World) (p : str) (st : State) :
  (forall before url, scraped_text (trafilatura W before url) = None) \/
  (forall before user_data,
     says_true (content_of (ollama_chat W before contains_data_msg user_data)) = false) ->
  fst (run_ai_search_pipeline W p st) = Ok None \/
  exists e, fst (run_ai_search_pipeline W p st) = Raise e /\ escapes W e.
Proof.
  intros Hnever.
  pose proof (run_ai_search_pipeline_outcome W p st) as Hout.
  pose proof (run_ai_search_pipeline_stages W p st) as Hstages. cbv zeta in Hstages.
  destruct (run_ai_search_pipeline W p st) as [r st'] eqn:Hrun. cbn [fst].
  destruct Hout as [[-> | [[text [-> Htext]] | [e [-> He]]]] _];
    [now left | exfalso | right; now exists e].
  destruct (helper_outcome (ollama_chat W (calls st) query_msg (user_data_for_llm p)))
    as [[reply|]|e]; [|discriminate Hstages|discriminate Hstages].
  destruct (truthy (strip_quotes reply)); [|discriminate Hstages].
  destruct (search_outcome _) as [[|c rest]|e]; [discriminate Hstages| |discriminate Hstages].
  match type of Hstages with
  | _ = try_results W ?n ?l ?a ?b ?s =>
      pose proof (try_results_run W a b n l s) as H; rewrite <- Hstages in H
  end.
  destruct H as [_ [tried [rest' [_ [_ [_ [c' [_ [b1 [b2 [Hpage [_ Hrel]]]]]]]]]]]].
  destruct Hnever as [Hnever | Hnever].
  - specialize (Hnever b1 (link c')). rewrite Hpage in Hnever. cbn [scraped_text] in Hnever.
    destruct text; [now elim Htext | discriminate Hnever].
  - rewrite Hnever in Hrel. discriminate Hrel.
Qed.

Lemma pipeline_without_relevant_text_witness :
  fst (run_ai_search_pipeline stubborn_world (lit "news") (initial_state stubborn_world))
  = Ok None \/
  exists e,
    fst (run_ai_search_pipeline stubborn_world (lit "news") (initial_state stubborn_world))
    = Raise e /\ escapes stubborn_world e.
Proof.
  apply pipeline_without_relevant_text. left. intros before url. reflexivity.
Defined.

(** ** Recording the answer (lines 338-374 and 404-430) *)

(** X18: when the streaming call delivers all its tokens, the whole
    conversation was sent with the request, the header, the tokens in order
    and a blank trailer are printed, and one assistant turn is appended whose
    content is the concatenation of the tokens. *)
Theorem stream_records_answer (W : World) (st : State) (tokens : list str) :
  conversation_history st <> [] ->
  ollama_stream W (calls st) (conversation_history st) = StreamTokens tokens None ->
  stream_and_record_assistant_response W st
  = (Ok tt,
     {| conversation_history :=
          conversation_history st ++ [{| role := assistant; content := List.concat tokens |}];
        stdout := stdout st ++ [[newline] ++ lit "ASSISTANT:" ++ [newline]] ++ tokens
                    ++ [[newline; newline; newline]];
        calls := calls st ++ [CallStream (conversation_history st)] |}).
Proof.
  intros Hne Hstream. unfold stream_and_record_assistant_response, bind at 1, get_history.
  destruct (conversation_history st) as [|t h] eqn:Hh; [now elim Hne|].
  unfold try_except, bind at 1, call. rewrite Hstream.
  unfold bind, println, print, append_turn, bind, get_history, set_history, ret.
  rewrite print_tokens_run. cbv beta iota.
  cbn [fst snd conversation_history stdout record_call calls].
  rewrite Hh, <- !app_assoc. reflexivity.
Qed.

Lemma stream_records_answer_witness :
  let st := {| conversation_history := [asistant_msg helpful_world; user_turn (lit "hi")];
               stdout := []; calls := [] |} in
  stream_and_record_assistant_response helpful_world st
  = (Ok tt,
     {| conversation_history :=
          conversation_history st
            ++ [{| role := assistant; content := List.concat [lit "It is"; lit " sunny."] |}];
        stdout := stdout st ++ [[newline] ++ lit "ASSISTANT:" ++ [newline]]
                    ++ [lit "It is"; lit " sunny."] ++ [[newline; newline; newline]];
        calls := calls st ++ [CallStream (conversation_history st)] |}).
Proof.
  apply (@stream_records_answer helpful_world
           {| conversation_history := [asistant_msg helpful_world; user_turn (lit "hi")];
              stdout := []; calls := [] |} [lit "It is"; lit " sunny."]).
  - discriminate.
  - reflexivity.
Defined.

(** X19: when a search was decided and the pipeline returns, the last turn
    of the conversation is taken off and a user turn is put in its place
    before the answer is streamed: its content is the context prompt around
    the retrieved text when the pipeline returned one, and the search-failed
    prompt otherwise; either prompt quotes the content of the turn that was
    taken off.  When an exception leaves the pipeline, it leaves answer_turn
    too, and the conversation is as it was. *)
Theorem answer_turn_rewrites_pending_turn (W : World) (typed : str) (st : State)
    (h : list Turn) (pending : Turn) :
  conversation_history st = h ++ [pending] ->
  match fst (run_ai_search_pipeline W typed st) with
  | Ok retrieved =>
      let asked :=
        match retrieved with
        | Some ctx => prompt_with_context ctx (content pending)
        | None => prompt_informing_failed_search (content pending)
        end in
      let '(r, st') := answer_turn W true typed st in
      conversation_history st' = h ++ [user_turn asked] \/
      exists answer,
        conversation_history st'
        = h ++ [user_turn asked; {| role := assistant; content := answer |}]
  | Raise e =>
      let '(r, st') := answer_turn W true typed st in
      r = Raise e /\ conversation_history st' = h ++ [pending]
  end.
Proof.
  intros Hst.
  pose proof (run_ai_search_pipeline_outcome W typed st) as Hpipe.
  destruct (run_ai_search_pipeline W typed st) as [r1 st1] eqn:Hrun.
  destruct Hpipe as [Hr [Hh _]]. cbn [fst].
  assert (Hfinish : forall asked st4,
            conversation_history st4 = h ++ [user_turn asked] ->
            let '(r, st') := stream_and_record_assistant_response W st4 in
            conversation_history st' = h ++ [user_turn asked] \/
            exists answer,
              conversation_history st'
              = h ++ [user_turn asked; {| role := assistant; content := answer |}]).
  { intros asked st4 Hst4. pose proof (stream_and_record_history W st4) as H.
    destruct (stream_and_record_assistant_response W st4) as [r st'].
    destruct H as [H | [answer H]]; rewrite H, Hst4; [now left|].
    right. exists answer. now rewrite <- app_assoc. }
  assert (Hpop : pop_turn st1
                 = (Ok pending, {| conversation_history := h; stdout := stdout st1;
                                   calls := calls st1 |})).
  { unfold pop_turn, bind at 1, get_history. rewrite Hh, Hst, pop_last_app. reflexivity. }
  destruct Hr as [-> | [[text [-> Htext]] | [e [-> _]]]]; cbv zeta;
    unfold answer_turn; unfold bind at 1; unfold bind at 1; rewrite Hrun.
  - unfold bind at 1. rewrite Hpop. rewrite append_turn_run.
    apply (Hfinish (prompt_informing_failed_search (content pending))). reflexivity.
  - unfold bind at 1. rewrite Hpop.
    assert (Htruthy : truthy text = true) by (destruct text; [now elim Htext | reflexivity]).
    rewrite Htruthy, append_turn_run.
    apply (Hfinish (prompt_with_context text (content pending))). reflexivity.
  - split; [reflexivity | congruence].
Qed.

Lemma answer_turn_rewrites_pending_turn_witness :
  let st := {| conversation_history := [asistant_msg stubborn_world; user_turn (lit "news?")];
               stdout := []; calls := [] |} in
  let '(r, st') := answer_turn stubborn_world true (lit "news?") st in
  conversation_history st'
  = [asistant_msg stubborn_world]
      ++ [user_turn (prompt_informing_failed_search (lit "news?"))] \/
  exists answer,
    conversation_history st'
    = [asistant_msg stubborn_world]
        ++ [user_turn (prompt_informing_failed_search (lit "news?"));
            {| role := assistant; content := answer |}].
Proof.
  pose proof (@answer_turn_rewrites_pending_turn stubborn_world (lit "news?")
                {| conversation_history :=
                     [asistant_msg stubborn_world; user_turn (lit "news?")];
                   stdout := []; calls := [] |}
                [asistant_msg stubborn_world] (user_turn (lit "news?")) eq_refl) as H.
  assert (Hrun : fst (run_ai_search_pipeline stubborn_world (lit "news?")
                        {| conversation_history :=
                             [asistant_msg stubborn_world; user_turn (lit "news?")];
                           stdout := []; calls := [] |}) = Ok None)
    by (vm_compute; reflexivity).
  rewrite Hrun in H. exact H.
Defined.

(** ** The REPL (lines 378-443) *)

Lemma printed_printed (a b : list str) (st : State) :
  printed b (printed a st) = printed (a ++ b) st.
Proof. unfold printed. cbn. now rewrite app_assoc. Qed.

Lemma input_line (s : str) (st : State) :
  input (Line s) st = (Ok s, printed [input_prompt] st).
Proof. reflexivity. Qed.

Lemma input_raises (e : exn) (st : State) :
  input (InputRaises e) st = (Raise e, printed [input_prompt] st).
Proof. reflexivity. Qed.

(** X20: a line that reads quit or exit in any letter case ends the
    session: nothing that is typed afterwards is read, the conversation is
    unchanged and no call is made. *)
Theorem main_quits (W : World) (s : str) (later : list Keyboard) (st : State) :
  lower s = lit "quit" \/ lower s = lit "exit" ->
  main W (Line s :: later) st = (Ok tt, printed [input_prompt] st).
Proof.
  intros Hcmd.
  assert (H : PyStr.eqb (lower s) (lit "quit") || PyStr.eqb (lower s) (lit "exit") = true)
    by (destruct Hcmd as [-> | ->]; reflexivity).
  cbn [main]. unfold bind at 1, main_iteration, try_except, loop_body.
  unfold bind at 1. rewrite input_line, H. reflexivity.
Qed.

Lemma main_quits_witness :
  main stubborn_world [Line (lit "QuIt"); Line (lit "more")] (initial_state stubborn_world)
  = (Ok tt, printed [input_prompt] (initial_state stubborn_world)).
Proof. apply main_quits. left. reflexivity. Defined.

(** X21: an interrupt at the prompt ends the session without a message and
    without touching the conversation; any other exception raised by
    input(), the end of the input included, is reported by the
    critical-error line and the loop goes on to the next input, so the end
    of the input does not end the loop. *)
Theorem main_input_exception (W : World) (e : exn) (later : list Keyboard) (st : State) :
  main W (InputRaises e :: later) st
  = if is_Exception e
    then main W later (printed [input_prompt; critical_error_message ++ [newline]] st)
    else (Ok tt, printed [input_prompt] st).
Proof.
  cbn [main]. unfold bind at 1, main_iteration, try_except, loop_body.
  unfold bind at 1. rewrite input_raises.
  destruct e; cbn [is_Exception]; try reflexivity;
    unfold bind, println, print, ret; cbv beta iota; cbn [printed conversation_history stdout calls];
    rewrite <- app_assoc; reflexivity.
Qed.

Lemma lstrip_keeps_last (l : str) (c : ascii) :
  isspace c = false -> lstrip (l ++ [c]) <> [].
Proof.
  intros Hc. induction l as [|a l IH]; cbn [app lstrip].
  - rewrite Hc. discriminate.
  - destruct (isspace a); [exact IH | discriminate].
Qed.

Lemma strip_empty_head (c : ascii) (s : str) : strip (c :: s) = [] -> isspace c = true.
Proof.
  unfold strip. cbn [lstrip]. destruct (isspace c) eqn:Hc; [reflexivity|].
  intros H. exfalso. cbn [rev] in H.
  apply (f_equal (@rev ascii)) in H. rewrite rev_involutive in H. cbn [rev] in H.
  now apply (@lstrip_keeps_last (rev s) c Hc).
Qed.

Lemma space_is_no_letter (c : ascii) :
  isspace c = true ->
  Ascii.eqb (lower_char c) "q"%char = false /\ Ascii.eqb (lower_char c) "e"%char = false.
Proof.
  destruct c as [[] [] [] [] [] [] [] []]; intros H; try discriminate H; split; reflexivity.
Qed.

Lemma blank_is_no_command (s : str) :
  strip s = [] ->
  PyStr.eqb (lower s) (lit "quit") || PyStr.eqb (lower s) (lit "exit") = false.
Proof.
  intros Hblank. destruct s as [|c s]; [reflexivity|].
  apply strip_empty_head in Hblank. apply space_is_no_letter in Hblank.
  destruct Hblank as [Hq He]. unfold PyStr.eqb.
  apply orb_false_iff. split.
  - destruct (list_eq_dec ascii_dec (lower (c :: s)) (lit "quit")) as [H|]; [|reflexivity].
    cbn in H. injection H as H _. rewrite H in Hq. discriminate Hq.
  - destruct (list_eq_dec ascii_dec (lower (c :: s)) (lit "exit")) as [H|]; [|reflexivity].
    cbn in H. injection H as H _. rewrite H in He. discriminate He.
Qed.

(** X22: a line that is empty or made of white space only is ignored: the
    loop goes on to the next input, no turn is appended and no call is
    made. *)
Theorem main_skips_blank_line (W : World) (s : str) (later : list Keyboard) (st : State) :
  strip s = [] ->
  main W (Line s :: later) st = main W later (printed [input_prompt] st).
Proof.
  intros Hblank. cbn [main]. unfold bind at 1, main_iteration, try_except, loop_body.
  unfold bind at 1. rewrite input_line, (blank_is_no_command s Hblank), Hblank.
  reflexivity.
Qed.

Lemma main_skips_blank_line_witness :
  main stubborn_world [Line (lit "   "); Line (lit "quit")] (initial_state stubborn_world)
  = main stubborn_world [Line (lit "quit")]
      (printed [input_prompt] (initial_state stubborn_world)).
Proof. apply main_skips_blank_line. reflexivity. Defined.



(** X23 on a session: a prompt, a blank line, the end of the input, a
    second prompt, then quit; what is typed after quit is not read. *)
Lemma main_session_turns :
  conversation_history
    (snd (main stubborn_world
            [Line (lit "hi"); Line (lit "  "); InputRaises EOFError; Line (lit "yo");
             Line (lit "quit"); Line (lit "late")]
            (initial_state stubborn_world)))
  = [asistant_msg stubborn_world; user_turn (lit "hi"); user_turn (lit "yo")].
Proof. vm_compute. reflexivity. Qed.
